(** * Football manager: Player, Team, League and Manager

    A shallow embedding of [projekt/src/player.py], [team.py], [league.py]
    and [manager.py].  Python integers are unbounded and are modelled by [Z].
    Every method is a state transformer over the object it receives as
    [self]; it either returns a value or raises, and when it raises the
    state it hands back is the one reached at the point of the [raise], so
    that a mutation made before a failure stays visible.

    Players and teams are objects with an identity: rosters and league
    tables are lists of references, and the objects themselves sit in
    finite maps from references.  An attribute read on a reference at
    which the map has no object of the expected class raises
    [AttributeError], as it does in Python for an object that lacks the
    attribute.

    Left out: the results of [Team.get_average_rating],
    [Team.get_average_age], [Player.get_market_value] and
    [Manager.simulate_match], which are computed in binary floating
    point. *)

From stdpp Require Import base tactics option list gmap strings.
From Stdlib Require Import ZArith Lia.

Local Open Scope string_scope.
Local Open Scope list_scope.
Local Open Scope Z_scope.

(** ** Exceptions and the method monad *)

Inductive exn : Type :=
  | ValueError (msg : string)
  | TypeError (msg : string)
  | AttributeError (attr : string)
  | KeyError (key : string)
  | FileNotFoundError (filename : string).

Inductive outcome (A : Type) : Type :=
  | Returns (a : A)
  | Raises (e : exn).
Arguments Returns {A} a.
Arguments Raises {A} e.

Definition raised {A} (o : outcome A) : Prop :=
  match o with Raises _ => True | Returns _ => False end.

(** [method S A]: a method whose receiver has state [S] and whose result
    has type [A]. *)
Definition method (S A : Type) : Type := S → outcome A * S.

Definition ret {S A} (a : A) : method S A := λ s, (Returns a, s).

Definition bind {S A B} (m : method S A) (k : A → method S B) : method S B :=
  λ s, match m s with
       | (Returns a, s') => k a s'
       | (Raises e, s') => (Raises e, s')
       end.

Definition raise {S A} (e : exn) : method S A := λ s, (Raises e, s).
Definition get {S} : method S S := λ s, (Returns s, s).
Definition modify {S} (f : S → S) : method S unit := λ s, (Returns tt, f s).

Declare Scope method_scope.
Delimit Scope method_scope with method.
Notation "x <- m ;; k" := (bind m (λ x, k))
  (at level 100, m at next level, right associativity,
   format "'[v' x  <-  m  ;;  '/' k ']'") : method_scope.
Notation "m ;; k" := (bind m (λ _, k))
  (at level 100, right associativity,
   format "'[v' m  ;;  '/' k ']'") : method_scope.
Local Open Scope method_scope.

(** [for x in l: body x] *)
Fixpoint for_each {S A} (l : list A) (body : A → method S unit) : method S unit :=
  match l with
  | [] => ret tt
  | x :: l' => body x ;; for_each l' body
  end.

(** Object references.  Python compares objects of these classes by
    identity (none of them defines [__eq__]), so [x in xs] on a list of
    objects is membership of the reference. *)
Definition loc : Type := nat.

Definition contains (x : loc) (xs : list loc) : bool := bool_decide (x ∈ xs).

(** [class Position(Enum)] *)
Inductive Position : Type := GOALKEEPER | DEFENDER | MIDFIELDER | FORWARD.

(** Arguments whose type the code inspects at run time are passed as
    dynamically typed values. *)
Inductive value : Type :=
  | VInt (z : Z)
  | VBool (b : bool)
  | VStr (s : string)
  | VNone
  | VPosition (p : Position).

Global Instance Position_eq_dec : EqDecision Position.
Proof. solve_decision. Defined.

Global Instance value_eq_dec : EqDecision value.
Proof. solve_decision. Defined.

(** [isinstance(v, int)]; [bool] is a subclass of [int] in Python. *)
Definition as_int (v : value) : option Z :=
  match v with
  | VInt z => Some z
  | VBool b => Some (if b then 1 else 0)
  | _ => None
  end.

(** [isinstance(v, Position)] *)
Definition as_position (v : value) : option Position :=
  match v with VPosition p => Some p | _ => None end.

(** [Position.X.name] and [Position[s]] *)
Definition Position_name (p : Position) : string :=
  match p with
  | GOALKEEPER => "GOALKEEPER"
  | DEFENDER => "DEFENDER"
  | MIDFIELDER => "MIDFIELDER"
  | FORWARD => "FORWARD"
  end.

Definition Position_getitem (s : string) : outcome Position :=
  if decide (s = "GOALKEEPER") then Returns GOALKEEPER
  else if decide (s = "DEFENDER") then Returns DEFENDER
  else if decide (s = "MIDFIELDER") then Returns MIDFIELDER
  else if decide (s = "FORWARD") then Returns FORWARD
  else Raises (KeyError s).

(** ** player.py *)

Module Player.

Record t : Type := mk {
  name : string;
  position : Position;
  age : Z;
  overall_rating : Z;
  stamina : Z;
  injured : bool;
  is_captain : bool;
  goals : Z;
  assists : Z;
  matches_played : Z;
  yellow_cards : Z;
  red_cards : Z;
  suspended : bool;
  contract_years_left : Z;
  morale : Z;
  retired : bool;
  on_loan : bool;
  loaned_to : option string;
  loan_duration : Z
}.

(** Attribute assignment [self.f = v], one function per attribute. *)
Definition set_name (v : string) (self : t) : t :=
  {| name := v; position := position self; age := age self;
     overall_rating := overall_rating self; stamina := stamina self;
     injured := injured self; is_captain := is_captain self;
     goals := goals self; assists := assists self;
     matches_played := matches_played self;
     yellow_cards := yellow_cards self; red_cards := red_cards self;
     suspended := suspended self;
     contract_years_left := contract_years_left self; morale := morale self;
     retired := retired self; on_loan := on_loan self;
     loaned_to := loaned_to self; loan_duration := loan_duration self |}.
Definition set_position (v : Position) (self : t) : t :=
  {| name := name self; position := v; age := age self;
     overall_rating := overall_rating self; stamina := stamina self;
     injured := injured self; is_captain := is_captain self;
     goals := goals self; assists := assists self;
     matches_played := matches_played self;
     yellow_cards := yellow_cards self; red_cards := red_cards self;
     suspended := suspended self;
     contract_years_left := contract_years_left self; morale := morale self;
     retired := retired self; on_loan := on_loan self;
     loaned_to := loaned_to self; loan_duration := loan_duration self |}.
Definition set_age (v : Z) (self : t) : t :=
  {| name := name self; position := position self; age := v;
     overall_rating := overall_rating self; stamina := stamina self;
     injured := injured self; is_captain := is_captain self;
     goals := goals self; assists := assists self;
     matches_played := matches_played self;
     yellow_cards := yellow_cards self; red_cards := red_cards self;
     suspended := suspended self;
     contract_years_left := contract_years_left self; morale := morale self;
     retired := retired self; on_loan := on_loan self;
     loaned_to := loaned_to self; loan_duration := loan_duration self |}.
Definition set_overall_rating (v : Z) (self : t) : t :=
  {| name := name self; position := position self; age := age self;
     overall_rating := v; stamina := stamina self; injured := injured self;
     is_captain := is_captain self; goals := goals self;
     assists := assists self; matches_played := matches_played self;
     yellow_cards := yellow_cards self; red_cards := red_cards self;
     suspended := suspended self;
     contract_years_left := contract_years_left self; morale := morale self;
     retired := retired self; on_loan := on_loan self;
     loaned_to := loaned_to self; loan_duration := loan_duration self |}.
Definition set_stamina (v : Z) (self : t) : t :=
  {| name := name self; position := position self; age := age self;
     overall_rating := overall_rating self; stamina := v;
     injured := injured self; is_captain := is_captain self;
     goals := goals self; assists := assists self;
     matches_played := matches_played self;
     yellow_cards := yellow_cards self; red_cards := red_cards self;
     suspended := suspended self;
     contract_years_left := contract_years_left self; morale := morale self;
     retired := retired self; on_loan := on_loan self;
     loaned_to := loaned_to self; loan_duration := loan_duration self |}.
Definition set_injured (v : bool) (self : t) : t :=
  {| name := name self; position := position self; age := age self;
     overall_rating := overall_rating self; stamina := stamina self;
     injured := v; is_captain := is_captain self; goals := goals self;
     assists := assists self; matches_played := matches_played self;
     yellow_cards := yellow_cards self; red_cards := red_cards self;
     suspended := suspended self;
     contract_years_left := contract_years_left self; morale := morale self;
     retired := retired self; on_loan := on_loan self;
     loaned_to := loaned_to self; loan_duration := loan_duration self |}.
Definition set_is_captain (v : bool) (self : t) : t :=
  {| name := name self; position := position self; age := age self;
     overall_rating := overall_rating self; stamina := stamina self;
     injured := injured self; is_captain := v; goals := goals self;
     assists := assists self; matches_played := matches_played self;
     yellow_cards := yellow_cards self; red_cards := red_cards self;
     suspended := suspended self;
     contract_years_left := contract_years_left self; morale := morale self;
     retired := retired self; on_loan := on_loan self;
     loaned_to := loaned_to self; loan_duration := loan_duration self |}.
Definition set_goals (v : Z) (self : t) : t :=
  {| name := name self; position := position self; age := age self;
     overall_rating := overall_rating self; stamina := stamina self;
     injured := injured self; is_captain := is_captain self; goals := v;
     assists := assists self; matches_played := matches_played self;
     yellow_cards := yellow_cards self; red_cards := red_cards self;
     suspended := suspended self;
     contract_years_left := contract_years_left self; morale := morale self;
     retired := retired self; on_loan := on_loan self;
     loaned_to := loaned_to self; loan_duration := loan_duration self |}.
Definition set_assists (v : Z) (self : t) : t :=
  {| name := name self; position := position self; age := age self;
     overall_rating := overall_rating self; stamina := stamina self;
     injured := injured self; is_captain := is_captain self;
     goals := goals self; assists := v;
     matches_played := matches_played self;
     yellow_cards := yellow_cards self; red_cards := red_cards self;
     suspended := suspended self;
     contract_years_left := contract_years_left self; morale := morale self;
     retired := retired self; on_loan := on_loan self;
     loaned_to := loaned_to self; loan_duration := loan_duration self |}.
Definition set_matches_played (v : Z) (self : t) : t :=
  {| name := name self; position := position self; age := age self;
     overall_rating := overall_rating self; stamina := stamina self;
     injured := injured self; is_captain := is_captain self;
     goals := goals self; assists := assists self; matches_played := v;
     yellow_cards := yellow_cards self; red_cards := red_cards self;
     suspended := suspended self;
     contract_years_left := contract_years_left self; morale := morale self;
     retired := retired self; on_loan := on_loan self;
     loaned_to := loaned_to self; loan_duration := loan_duration self |}.
Definition set_yellow_cards (v : Z) (self : t) : t :=
  {| name := name self; position := position self; age := age self;
     overall_rating := overall_rating self; stamina := stamina self;
     injured := injured self; is_captain := is_captain self;
     goals := goals self; assists := assists self;
     matches_played := matches_played self; yellow_cards := v;
     red_cards := red_cards self; suspended := suspended self;
     contract_years_left := contract_years_left self; morale := morale self;
     retired := retired self; on_loan := on_loan self;
     loaned_to := loaned_to self; loan_duration := loan_duration self |}.
Definition set_red_cards (v : Z) (self : t) : t :=
  {| name := name self; position := position self; age := age self;
     overall_rating := overall_rating self; stamina := stamina self;
     injured := injured self; is_captain := is_captain self;
     goals := goals self; assists := assists self;
     matches_played := matches_played self;
     yellow_cards := yellow_cards self; red_cards := v;
     suspended := suspended self;
     contract_years_left := contract_years_left self; morale := morale self;
     retired := retired self; on_loan := on_loan self;
     loaned_to := loaned_to self; loan_duration := loan_duration self |}.
Definition set_suspended (v : bool) (self : t) : t :=
  {| name := name self; position := position self; age := age self;
     overall_rating := overall_rating self; stamina := stamina self;
     injured := injured self; is_captain := is_captain self;
     goals := goals self; assists := assists self;
     matches_played := matches_played self;
     yellow_cards := yellow_cards self; red_cards := red_cards self;
     suspended := v; contract_years_left := contract_years_left self;
     morale := morale self; retired := retired self; on_loan := on_loan self;
     loaned_to := loaned_to self; loan_duration := loan_duration self |}.
Definition set_contract_years_left (v : Z) (self : t) : t :=
  {| name := name self; position := position self; age := age self;
     overall_rating := overall_rating self; stamina := stamina self;
     injured := injured self; is_captain := is_captain self;
     goals := goals self; assists := assists self;
     matches_played := matches_played self;
     yellow_cards := yellow_cards self; red_cards := red_cards self;
     suspended := suspended self; contract_years_left := v;
     morale := morale self; retired := retired self; on_loan := on_loan self;
     loaned_to := loaned_to self; loan_duration := loan_duration self |}.
Definition set_morale (v : Z) (self : t) : t :=
  {| name := name self; position := position self; age := age self;
     overall_rating := overall_rating self; stamina := stamina self;
     injured := injured self; is_captain := is_captain self;
     goals := goals self; assists := assists self;
     matches_played := matches_played self;
     yellow_cards := yellow_cards self; red_cards := red_cards self;
     suspended := suspended self;
     contract_years_left := contract_years_left self; morale := v;
     retired := retired self; on_loan := on_loan self;
     loaned_to := loaned_to self; loan_duration := loan_duration self |}.
Definition set_retired (v : bool) (self : t) : t :=
  {| name := name self; position := position self; age := age self;
     overall_rating := overall_rating self; stamina := stamina self;
     injured := injured self; is_captain := is_captain self;
     goals := goals self; assists := assists self;
     matches_played := matches_played self;
     yellow_cards := yellow_cards self; red_cards := red_cards self;
     suspended := suspended self;
     contract_years_left := contract_years_left self; morale := morale self;
     retired := v; on_loan := on_loan self; loaned_to := loaned_to self;
     loan_duration := loan_duration self |}.
Definition set_on_loan (v : bool) (self : t) : t :=
  {| name := name self; position := position self; age := age self;
     overall_rating := overall_rating self; stamina := stamina self;
     injured := injured self; is_captain := is_captain self;
     goals := goals self; assists := assists self;
     matches_played := matches_played self;
     yellow_cards := yellow_cards self; red_cards := red_cards self;
     suspended := suspended self;
     contract_years_left := contract_years_left self; morale := morale self;
     retired := retired self; on_loan := v; loaned_to := loaned_to self;
     loan_duration := loan_duration self |}.
Definition set_loaned_to (v : option string) (self : t) : t :=
  {| name := name self; position := position self; age := age self;
     overall_rating := overall_rating self; stamina := stamina self;
     injured := injured self; is_captain := is_captain self;
     goals := goals self; assists := assists self;
     matches_played := matches_played self;
     yellow_cards := yellow_cards self; red_cards := red_cards self;
     suspended := suspended self;
     contract_years_left := contract_years_left self; morale := morale self;
     retired := retired self; on_loan := on_loan self; loaned_to := v;
     loan_duration := loan_duration self |}.
Definition set_loan_duration (v : Z) (self : t) : t :=
  {| name := name self; position := position self; age := age self;
     overall_rating := overall_rating self; stamina := stamina self;
     injured := injured self; is_captain := is_captain self;
     goals := goals self; assists := assists self;
     matches_played := matches_played self;
     yellow_cards := yellow_cards self; red_cards := red_cards self;
     suspended := suspended self;
     contract_years_left := contract_years_left self; morale := morale self;
     retired := retired self; on_loan := on_loan self;
     loaned_to := loaned_to self; loan_duration := v |}.

(** [Player.__init__] *)
Definition init (name' : string) (position' : Position) (age' overall_rating' : Z)
  : outcome t :=
  if (overall_rating' <? 0) || (overall_rating' >? 100) then
    Raises (ValueError "Overall rating must be between 0 and 100.")
  else if (age' <? 15) || (age' >? 50) then
    Raises (ValueError "Invalid age for player.")
  else
    Returns {| name := name'; position := position'; age := age';
               overall_rating := overall_rating'; stamina := 100;
               injured := false; is_captain := false; goals := 0;
               assists := 0; matches_played := 0; yellow_cards := 0;
               red_cards := 0; suspended := false; contract_years_left := 3;
               morale := 70; retired := false; on_loan := false;
               loaned_to := None; loan_duration := 0 |}.

Definition train : method t unit :=
  self <- get ;;
  if negb (injured self) then
    modify (λ self, set_overall_rating (Z.min 100 (overall_rating self + 1)) self) ;;
    modify (λ self, set_stamina (Z.max 0 (stamina self - 10)) self)
  else ret tt.

Definition rest : method t unit :=
  modify (λ self, set_stamina (Z.min 100 (stamina self + 20)) self).

Definition injure : method t unit := modify (set_injured true).

Definition is_exhausted : method t bool :=
  self <- get ;; ret (stamina self <? 30).

Definition recover_from_injury : method t unit :=
  self <- get ;;
  if negb (injured self) then raise (ValueError "Player is not injured.")
  else modify (set_injured false).

Definition age_up : method t unit :=
  modify (λ self, set_age (age self + 1) self) ;;
  self <- get ;;
  if age self >? 30 then
    modify (λ self, set_overall_rating (Z.max 0 (overall_rating self - 1)) self)
  else ret tt.

Definition change_position (new_position : value) : method t unit :=
  match as_position new_position with
  | None => raise (TypeError "new_position must be an instance of Position enum.")
  | Some p => modify (set_position p)
  end.

Definition promote_to_captain : method t unit := modify (set_is_captain true).

Definition demote_from_captain : method t unit := modify (set_is_captain false).

Definition record_match (goals' assists' : Z) : method t unit :=
  if (goals' <? 0) || (assists' <? 0) then
    raise (ValueError "Goals and assists cannot be negative.")
  else
    modify (λ self, set_goals (goals self + goals') self) ;;
    modify (λ self, set_assists (assists self + assists') self) ;;
    modify (λ self, set_matches_played (matches_played self + 1) self).

Definition receive_card (card_type : value) : method t unit :=
  if decide (card_type = VStr "yellow") then
    modify (λ self, set_yellow_cards (yellow_cards self + 1) self) ;;
    self <- get ;;
    if yellow_cards self =? 2 then
      modify (λ self, set_red_cards (red_cards self + 1) self) ;;
      modify (set_yellow_cards 0) ;;
      modify (set_suspended true)
    else ret tt
  else if decide (card_type = VStr "red") then
    modify (λ self, set_red_cards (red_cards self + 1) self) ;;
    modify (set_suspended true)
  else raise (ValueError "Invalid card type.").

Definition reset_cards : method t unit :=
  modify (set_yellow_cards 0) ;;
  modify (set_red_cards 0) ;;
  modify (set_suspended false).

Definition renew_contract (years : Z) : method t unit :=
  if years <=? 0 then raise (ValueError "Contract must be for at least 1 year.")
  else modify (set_contract_years_left years).

Definition is_contract_expiring : method t bool :=
  self <- get ;; ret (contract_years_left self <=? 1).

Definition decrement_contract : method t unit :=
  self <- get ;;
  if contract_years_left self >? 0 then
    modify (λ self, set_contract_years_left (contract_years_left self - 1) self)
  else ret tt.

Definition change_morale (amount : value) : method t unit :=
  match as_int amount with
  | None => raise (ValueError "Morale change must be an integer.")
  | Some amount =>
      modify (λ self, set_morale (Z.max 0 (Z.min 100 (morale self + amount))) self)
  end.

Definition get_morale_status : method t string :=
  self <- get ;;
  if morale self >=? 80 then ret "Excellent"
  else if morale self >=? 60 then ret "Good"
  else if morale self >=? 40 then ret "Average"
  else if morale self >=? 20 then ret "Low"
  else ret "Very Low".

Definition check_retirement : method t unit :=
  self <- get ;;
  if age self >=? 40 then modify (set_retired true) else ret tt.

Definition loan_to (club_name : string) (duration : Z) : method t unit :=
  self <- get ;;
  if on_loan self then raise (ValueError "Player is already on loan.")
  else if duration <=? 0 then raise (ValueError "Duration must be positive.")
  else
    modify (set_on_loan true) ;;
    modify (set_loaned_to (Some club_name)) ;;
    modify (set_loan_duration duration).

Definition return_from_loan : method t unit :=
  self <- get ;;
  if negb (on_loan self) then raise (ValueError "Player is not on loan.")
  else
    modify (set_on_loan false) ;;
    modify (set_loaned_to None) ;;
    modify (set_loan_duration 0).

Definition reduce_loan_duration : method t unit :=
  self <- get ;;
  if on_loan self then
    modify (λ self, set_loan_duration (loan_duration self - 1) self) ;;
    self <- get ;;
    if loan_duration self <=? 0 then return_from_loan else ret tt
  else ret tt.

(** [get_market_value] computes with binary floating point and Python's
    [round]; its result is outside this model.  It assigns no attribute,
    which is all that a sequence of calls on a player needs of it. *)
Definition get_market_value : method t unit := ret tt.

End Player.

(** ** Python list operations on lists of references *)

(** [xs.remove(x)]: drops the first occurrence (the callers below check
    membership first, so the absent case leaves the list as it is). *)
Fixpoint list_remove (x : loc) (xs : list loc) : list loc :=
  match xs with
  | [] => []
  | y :: ys => if decide (x = y) then ys else y :: list_remove x ys
  end.

(** [xs.index(x)] *)
Fixpoint list_index (x : loc) (xs : list loc) : option nat :=
  match xs with
  | [] => None
  | y :: ys => if decide (x = y) then Some 0%nat else S <$> list_index x ys
  end.

(** A [for] loop that carries one local variable [acc]. *)
Fixpoint for_fold {S A B} (l : list A) (acc : B) (body : B → A → method S B)
  : method S B :=
  match l with
  | [] => ret acc
  | x :: l' => acc' <- body acc x ;; for_fold l' acc' body
  end.

(** ** team.py *)

Module Team.

(** [attrs] holds the attributes given to a team object from outside the
    class ([team.points = 15]); [__init__] defines none of them. *)
Record t : Type := mk {
  name : string;
  players : list loc;
  formation : string;
  starting_eleven : list loc;
  bench : list loc;
  goals_scored : Z;
  goals_conceded : Z;
  wins : Z;
  draws : Z;
  losses : Z;
  attrs : gmap string Z
}.

(** Attribute assignment [self.f = v], one function per attribute; the
    one for [formation] is primed because the method has the plain name. *)
Definition set_name (v : string) (self : t) : t :=
  {| name := v; players := players self; formation := formation self;
     starting_eleven := starting_eleven self; bench := bench self;
     goals_scored := goals_scored self;
     goals_conceded := goals_conceded self; wins := wins self;
     draws := draws self; losses := losses self; attrs := attrs self |}.
Definition set_players (v : list loc) (self : t) : t :=
  {| name := name self; players := v; formation := formation self;
     starting_eleven := starting_eleven self; bench := bench self;
     goals_scored := goals_scored self;
     goals_conceded := goals_conceded self; wins := wins self;
     draws := draws self; losses := losses self; attrs := attrs self |}.
Definition set_formation' (v : string) (self : t) : t :=
  {| name := name self; players := players self; formation := v;
     starting_eleven := starting_eleven self; bench := bench self;
     goals_scored := goals_scored self;
     goals_conceded := goals_conceded self; wins := wins self;
     draws := draws self; losses := losses self; attrs := attrs self |}.
Definition set_starting_eleven (v : list loc) (self : t) : t :=
  {| name := name self; players := players self; formation := formation self;
     starting_eleven := v; bench := bench self;
     goals_scored := goals_scored self;
     goals_conceded := goals_conceded self; wins := wins self;
     draws := draws self; losses := losses self; attrs := attrs self |}.
Definition set_goals_scored (v : Z) (self : t) : t :=
  {| name := name self; players := players self; formation := formation self;
     starting_eleven := starting_eleven self; bench := bench self;
     goals_scored := v; goals_conceded := goals_conceded self;
     wins := wins self; draws := draws self; losses := losses self;
     attrs := attrs self |}.
Definition set_goals_conceded (v : Z) (self : t) : t :=
  {| name := name self; players := players self; formation := formation self;
     starting_eleven := starting_eleven self; bench := bench self;
     goals_scored := goals_scored self; goals_conceded := v;
     wins := wins self; draws := draws self; losses := losses self;
     attrs := attrs self |}.
Definition set_wins (v : Z) (self : t) : t :=
  {| name := name self; players := players self; formation := formation self;
     starting_eleven := starting_eleven self; bench := bench self;
     goals_scored := goals_scored self;
     goals_conceded := goals_conceded self; wins := v; draws := draws self;
     losses := losses self; attrs := attrs self |}.
Definition set_draws (v : Z) (self : t) : t :=
  {| name := name self; players := players self; formation := formation self;
     starting_eleven := starting_eleven self; bench := bench self;
     goals_scored := goals_scored self;
     goals_conceded := goals_conceded self; wins := wins self; draws := v;
     losses := losses self; attrs := attrs self |}.
Definition set_losses (v : Z) (self : t) : t :=
  {| name := name self; players := players self; formation := formation self;
     starting_eleven := starting_eleven self; bench := bench self;
     goals_scored := goals_scored self;
     goals_conceded := goals_conceded self; wins := wins self;
     draws := draws self; losses := v; attrs := attrs self |}.
Definition set_attrs (v : gmap string Z) (self : t) : t :=
  {| name := name self; players := players self; formation := formation self;
     starting_eleven := starting_eleven self; bench := bench self;
     goals_scored := goals_scored self;
     goals_conceded := goals_conceded self; wins := wins self;
     draws := draws self; losses := losses self; attrs := v |}.

(** [Team.__init__] *)
Definition init (name' : string) : t :=
  {| name := name'; players := []; formation := "4-4-2";
     starting_eleven := []; bench := []; goals_scored := 0;
     goals_conceded := 0; wins := 0; draws := 0; losses := 0; attrs := ∅ |}.

Section methods.
(** The player objects that exist, by reference.  Team methods read
    them and never assign to them. *)
Variable player_objs : gmap loc Player.t.

(** Reading attribute [attr] of the object at [l]: an object that is not
    a player has no such attribute. *)
Definition player_attr {S A} (l : loc) (attr : string) (f : Player.t → A)
  : method S A :=
  match player_objs !! l with
  | Some p => ret (f p)
  | None => raise (AttributeError attr)
  end.

Definition add_player (player : loc) : method t unit :=
  self <- get ;;
  if contains player (players self) then
    raise (ValueError "Player already in team.")
  else
    is_retired <- player_attr player "retired" Player.retired ;;
    if is_retired then raise (ValueError "Cannot add retired player.")
    else modify (λ self, set_players (players self ++ [player]) self).

Definition remove_player (player : loc) : method t unit :=
  self <- get ;;
  if negb (contains player (players self)) then
    raise (ValueError "Player not found.")
  else modify (λ self, set_players (list_remove player (players self)) self).

Definition set_formation (formation' : string) : method t unit :=
  let allowed := ["4-4-2"; "4-3-3"; "3-5-2"] in
  if negb (bool_decide (formation' ∈ allowed)) then
    raise (ValueError "Unsupported formation.")
  else modify (set_formation' formation').

Definition assign_starting_eleven (players' : list loc) : method t unit :=
  if negb (length players' =? 11)%nat then
    raise (ValueError "Starting eleven must contain 11 players.")
  else
    for_each players' (λ p,
      self <- get ;;
      if negb (contains p (players self)) then
        p_name <- player_attr p "name" Player.name ;;
        raise (ValueError (p_name ++ " not in team.")%string)
      else ret tt) ;;
    modify (set_starting_eleven players').

Definition update_match_result (goals_for goals_against : Z) : method t unit :=
  modify (λ self, set_goals_scored (goals_scored self + goals_for) self) ;;
  modify (λ self, set_goals_conceded (goals_conceded self + goals_against) self) ;;
  if goals_for >? goals_against then
    modify (λ self, set_wins (wins self + 1) self)
  else if goals_for <? goals_against then
    modify (λ self, set_losses (losses self + 1) self)
  else
    modify (λ self, set_draws (draws self + 1) self).

(** [[p for p in self.players if cond(p)]] *)
Definition select {S} (attr : string) (cond : Player.t → bool) (ps : list loc)
  : method S (list loc) :=
  for_fold ps [] (λ acc p,
    keep <- player_attr p attr cond ;;
    ret (if keep then acc ++ [p] else acc)).

Definition get_injured_players : method t (list loc) :=
  self <- get ;; select "injured" Player.injured (players self).

Definition get_players_by_position (position : Position) : method t (list loc) :=
  self <- get ;;
  select "position" (λ p, bool_decide (Player.position p = position))
    (players self).

(** The scan shared by the four "best of" queries:
    [best = players[0]; for player in players[1:]:
       if player.attr > best.attr: best = player] *)
Definition scan_best (attr : string) (f : Player.t → Z) : method t (option loc) :=
  self <- get ;;
  match players self with
  | [] => ret None
  | first :: others =>
      best <- for_fold others first (λ best player,
        mine <- player_attr player attr f ;;
        theirs <- player_attr best attr f ;;
        ret (if mine >? theirs then player else best)) ;;
      ret (Some best)
  end.

Definition get_best_player : method t (option loc) :=
  scan_best "overall_rating" Player.overall_rating.

Definition swap_players (player_out player_in : loc) : method t unit :=
  self <- get ;;
  if negb (contains player_out (players self)) then
    raise (ValueError "Player to remove is not in the team.")
  else
    remove_player player_out ;;
    add_player player_in.

Definition get_top_scorer : method t (option loc) :=
  scan_best "goals" Player.goals.

Definition get_top_assistant : method t (option loc) :=
  scan_best "assists" Player.assists.

Definition get_most_active_player : method t (option loc) :=
  scan_best "matches_played" Player.matches_played.

Definition get_loaned_players : method t (list loc) :=
  self <- get ;; select "on_loan" Player.on_loan (players self).

End methods.

End Team.

(** ** league.py *)

Module League.

Record t : Type := mk {
  name : string;
  teams : list loc
}.

Definition set_teams (v : list loc) (self : t) : t :=
  {| name := name self; teams := v |}.

(** [League.__init__] *)
Definition init (name' : string) : t := {| name := name'; teams := [] |}.

Section methods.
(** The team objects that exist, by reference.  League methods read
    them and never assign to them. *)
Variable team_objs : gmap loc Team.t.

(** Reading an attribute that [Team.__init__] defines. *)
Definition team_attr {S A} (l : loc) (attr : string) (f : Team.t → A)
  : method S A :=
  match team_objs !! l with
  | Some T => ret (f T)
  | None => raise (AttributeError attr)
  end.

(** Reading an attribute that [Team.__init__] does not define: it is
    there only when it was assigned from outside. *)
Definition team_extra_attr {S} (l : loc) (attr : string) : method S Z :=
  match team_objs !! l with
  | Some T =>
      match Team.attrs T !! attr with
      | Some v => ret v
      | None => raise (AttributeError attr)
      end
  | None => raise (AttributeError attr)
  end.

Definition add_team (team : loc) : method t unit :=
  if negb (bool_decide (is_Some (team_objs !! team))) then
    raise (TypeError "Only Team instances can be added.")
  else
    self <- get ;;
    if contains team (teams self) then raise (ValueError "Team already in league.")
    else modify (λ self, set_teams (teams self ++ [team]) self).

Definition remove_team (team : loc) : method t unit :=
  self <- get ;;
  if negb (contains team (teams self)) then
    raise (ValueError "Team not found in league.")
  else modify (λ self, set_teams (list_remove team (teams self)) self).

(** [for team in ts: if team.name == name: return team] and then
    [return None] *)
Fixpoint first_named {S} (name' : string) (ts : list loc) : method S (option loc) :=
  match ts with
  | [] => ret None
  | team :: ts' =>
      team_name <- team_attr team "name" Team.name ;;
      if bool_decide (team_name = name') then ret (Some team)
      else first_named name' ts'
  end.

Definition get_team_by_name (name' : string) : method t (option loc) :=
  self <- get ;; first_named name' (teams self).

Definition goal_difference (T : Team.t) : Z :=
  Team.goals_scored T - Team.goals_conceded T.

Definition get_top_team : method t (option loc) :=
  self <- get ;;
  match teams self with
  | [] => ret None
  | first :: others =>
      top_team <- for_fold others first (λ top_team team,
        team_points <- team_extra_attr team "points" ;;
        top_points <- team_extra_attr top_team "points" ;;
        if team_points >? top_points then ret team
        else if team_points =? top_points then
          top_diff <- team_attr top_team "goals_scored" goal_difference ;;
          team_diff <- team_attr team "goals_scored" goal_difference ;;
          ret (if team_diff >? top_diff then team else top_team)
        else ret top_team) ;;
      ret (Some top_team)
  end.

Definition get_bottom_team : method t (option loc) :=
  self <- get ;;
  match teams self with
  | [] => ret None
  | first :: others =>
      bottom_team <- for_fold others first (λ bottom_team team,
        team_points <- team_extra_attr team "points" ;;
        bottom_points <- team_extra_attr bottom_team "points" ;;
        if team_points <? bottom_points then ret team
        else if team_points =? bottom_points then
          bottom_diff <- team_attr bottom_team "goals_scored" goal_difference ;;
          team_diff <- team_attr team "goals_scored" goal_difference ;;
          ret (if team_diff <? bottom_diff then team else bottom_team)
        else ret bottom_team) ;;
      ret (Some bottom_team)
  end.

Definition get_team_stats (name' : string) : method t (gmap string Z) :=
  team <- get_team_by_name name' ;;
  match team with
  | None => raise (ValueError "Team not found.")
  | Some team =>
      points <- team_extra_attr team "points" ;;
      T <- team_attr team "wins" id ;;
      ret (<["points" := points]> (<["wins" := Team.wins T]>
          (<["draws" := Team.draws T]> (<["losses" := Team.losses T]>
          (<["goals_scored" := Team.goals_scored T]>
          (<["goals_conceded" := Team.goals_conceded T]> ∅))))))
  end.

(** [any(team.name == name for team in self.teams)] *)
Fixpoint any_named {S} (name' : string) (ts : list loc) : method S bool :=
  match ts with
  | [] => ret false
  | team :: ts' =>
      team_name <- team_attr team "name" Team.name ;;
      if bool_decide (team_name = name') then ret true
      else any_named name' ts'
  end.

Definition has_team (name' : string) : method t bool :=
  self <- get ;; any_named name' (teams self).

Definition replace_team (old_team new_team : loc) : method t unit :=
  self <- get ;;
  if negb (contains old_team (teams self)) then
    raise (ValueError "Old team not in league.")
  else
    match list_index old_team (teams self) with
    | None => raise (ValueError "list.index(x): x not in list")
    | Some i => modify (λ self, set_teams (<[i := new_team]> (teams self)) self)
    end.

End methods.

End League.

(** ** manager.py *)

Module Manager.

(** What [save_team_to_file] hands to [json.dump]: a dictionary with the
    keys [team_name] and [players], the latter a list of dictionaries with
    the keys [name], [position], [age], [rating], [stamina], [injured].
    The [json] module writes strings, integers and booleans so that
    [json.load] reads the same values back; a file is modelled by the
    document it holds. *)
Record player_entry : Type := mk_entry {
  entry_name : string;
  entry_position : string;
  entry_age : Z;
  entry_rating : Z;
  entry_stamina : Z;
  entry_injured : bool
}.

Record document : Type := mk_document {
  doc_team_name : string;
  doc_players : list player_entry
}.

(** The objects and files a manager works on. *)
Record world : Type := mk_world {
  player_objs : gmap loc Player.t;
  team_objs : gmap loc Team.t;
  files : gmap string document
}.

Definition set_player_objs (v : gmap loc Player.t) (w : world) : world :=
  {| player_objs := v; team_objs := team_objs w; files := files w |}.
Definition set_team_objs (v : gmap loc Team.t) (w : world) : world :=
  {| player_objs := player_objs w; team_objs := v; files := files w |}.
Definition set_files (v : gmap string document) (w : world) : world :=
  {| player_objs := player_objs w; team_objs := team_objs w; files := v |}.

Record t : Type := mk {
  team : loc;
  budget : Z
}.

Definition set_budget (v : Z) (self : t) : t :=
  {| team := team self; budget := v |}.

(** [Manager.__init__] *)
Definition init (team' : loc) : t := {| team := team'; budget := 100 |}.

(** A manager method runs on the manager object and the world. *)
Definition state : Type := t * world.

Definition get_self : method state t := λ s, (Returns (fst s), s).
Definition get_world : method state world := λ s, (Returns (snd s), s).
Definition modify_self (f : t → t) : method state unit :=
  λ s, (Returns tt, (f (fst s), snd s)).
Definition modify_world (f : world → world) : method state unit :=
  λ s, (Returns tt, (fst s, f (snd s))).

(** Reading [attr] of the team object at [l]. *)
Definition team_attr {A} (l : loc) (attr : string) (f : Team.t → A) : method state A :=
  w <- get_world ;;
  match team_objs w !! l with
  | Some T => ret (f T)
  | None => raise (AttributeError attr)
  end.

(** Reading an attribute of a team that [Team.__init__] does not define. *)
Definition team_extra_attr (l : loc) (attr : string) : method state Z :=
  w <- get_world ;;
  match team_objs w !! l with
  | Some T =>
      match Team.attrs T !! attr with
      | Some v => ret v
      | None => raise (AttributeError attr)
      end
  | None => raise (AttributeError attr)
  end.

Definition player_attr {A} (l : loc) (attr : string) (f : Player.t → A)
  : method state A :=
  w <- get_world ;;
  match player_objs w !! l with
  | Some p => ret (f p)
  | None => raise (AttributeError attr)
  end.

(** Calling method [m] on the team object at [l]; [attr] is the method's
    name.  Whatever the method did to the team before returning or
    raising is stored back. *)
Definition call_team {A} (l : loc) (attr : string)
    (m : gmap loc Player.t → method Team.t A) : method state A :=
  λ s, match team_objs (snd s) !! l with
       | Some T =>
           let (o, T') := m (player_objs (snd s)) T in
           (o, (fst s, set_team_objs (<[l := T']> (team_objs (snd s))) (snd s)))
       | None => (Raises (AttributeError attr), s)
       end.

Definition call_player {A} (l : loc) (attr : string) (m : method Player.t A)
  : method state A :=
  λ s, match player_objs (snd s) !! l with
       | Some p =>
           let (o, p') := m p in
           (o, (fst s, set_player_objs (<[l := p']> (player_objs (snd s))) (snd s)))
       | None => (Raises (AttributeError attr), s)
       end.

(** Creating an object: it gets a reference no existing object has. *)
Definition fresh_loc (w : world) : loc :=
  fresh (dom (player_objs w) ∪ dom (team_objs w)).

Definition new_team (T : Team.t) : method state loc :=
  w <- get_world ;;
  let l := fresh_loc w in
  modify_world (λ w, set_team_objs (<[l := T]> (team_objs w)) w) ;;
  ret l.

Definition new_player (p : Player.t) : method state loc :=
  w <- get_world ;;
  let l := fresh_loc w in
  modify_world (λ w, set_player_objs (<[l := p]> (player_objs w)) w) ;;
  ret l.

(** A constructor or lookup that raises, inside a method. *)
Definition lift {S A} (o : outcome A) : method S A :=
  match o with
  | Returns a => ret a
  | Raises e => raise e
  end.

(** [[f(p) for p in ps]] *)
Fixpoint for_list {S A B} (l : list A) (f : A → method S B) : method S (list B) :=
  match l with
  | [] => ret []
  | x :: l' => y <- f x ;; ys <- for_list l' f ;; ret (y :: ys)
  end.

(** The dictionary written for player [p]. *)
Definition entry_of (p : Player.t) : player_entry :=
  {| entry_name := Player.name p;
     entry_position := Position_name (Player.position p);
     entry_age := Player.age p;
     entry_rating := Player.overall_rating p;
     entry_stamina := Player.stamina p;
     entry_injured := Player.injured p |}.

Definition save_team_to_file (filename : string) : method state unit :=
  self <- get_self ;;
  team_name <- team_attr (team self) "name" Team.name ;;
  roster <- team_attr (team self) "players" Team.players ;;
  entries <- for_list roster (λ p, player_attr p "name" entry_of) ;;
  let data := {| doc_team_name := team_name; doc_players := entries |} in
  modify_world (λ w, set_files (<[filename := data]> (files w)) w).

Definition load_team_from_file (filename : string) : method state loc :=
  w <- get_world ;;
  match files w !! filename with
  | None => raise (FileNotFoundError filename)
  | Some data =>
      team <- new_team (Team.init (doc_team_name data)) ;;
      for_each (doc_players data) (λ p,
        position <- lift (Position_getitem (entry_position p)) ;;
        fields <- lift (Player.init (entry_name p) position
                          (entry_age p) (entry_rating p)) ;;
        player <- new_player fields ;;
        call_player player "stamina" (modify (Player.set_stamina (entry_stamina p))) ;;
        call_player player "injured" (modify (Player.set_injured (entry_injured p))) ;;
        call_team team "add_player" (λ objs, Team.add_player objs player)) ;;
      ret team
  end.

Definition train_team : method state unit :=
  self <- get_self ;;
  roster <- team_attr (team self) "players" Team.players ;;
  for_each roster (λ player,
    is_injured <- player_attr player "injured" Player.injured ;;
    if negb is_injured then call_player player "train" Player.train
    else ret tt).

Definition rest_team : method state unit :=
  self <- get_self ;;
  roster <- team_attr (team self) "players" Team.players ;;
  for_each roster (λ player, call_player player "rest" Player.rest).

(** [[p for p in ps if cond(p)]] *)
Definition select (attr : string) (cond : Player.t → bool) (ps : list loc)
  : method state (list loc) :=
  for_fold ps [] (λ acc p,
    keep <- player_attr p attr cond ;;
    ret (if keep then acc ++ [p] else acc)).


Definition buy_player (player : loc) (price : Z) : method state unit :=
  self <- get_self ;;
  roster <- team_attr (team self) "players" Team.players ;;
  if contains player roster then raise (ValueError "Player already in team.")
  else
    roster <- team_attr (team self) "players" Team.players ;;
    max_players <- team_extra_attr (team self) "max_players" ;;
    if Z.of_nat (length roster) >=? max_players then
      raise (ValueError "Team has reached maximum size.")
    else if price >? budget self then
      raise (ValueError "Insufficient budget to buy player.")
    else
      call_team (team self) "add_player" (λ objs, Team.add_player objs player) ;;
      modify_self (λ self, set_budget (budget self - price) self).

Definition sell_player (player : loc) (price : Z) : method state unit :=
  self <- get_self ;;
  roster <- team_attr (team self) "players" Team.players ;;
  if negb (contains player roster) then raise (ValueError "Player not found in team.")
  else
    call_team (team self) "remove_player" (λ _, Team.remove_player player) ;;
    modify_self (λ self, set_budget (budget self + price) self).

End Manager.

(** ** lab3/src/ship.py *)

Module Ship.

Record t : Type := mk {
  crew_member : list string;
  destination : string;
  voyage_duration : Z
}.

Definition set_crew_member (v : list string) (self : t) : t :=
  {| crew_member := v; destination := destination self;
     voyage_duration := voyage_duration self |}.

(** [Ship.__init__]: [isinstance(voyage_duration, int)] also admits a
    [bool], which counts as 0 or 1. *)
Definition init (destination' voyage_duration' : value) : outcome t :=
  match destination' with
  | VStr d =>
      match as_int voyage_duration' with
      | Some n =>
          Returns {| crew_member := []; destination := d; voyage_duration := n |}
      | None => Raises (TypeError "Voyage duration must be an integer")
      end
  | _ => Raises (TypeError "Destination must be a string")
  end.

Definition calculate_fuel : method t Z :=
  self <- get ;; ret (voyage_duration self * 100).

Definition add_crew_member (crew_member' : value) : method t unit :=
  match crew_member' with
  | VStr name =>
      if decide (name = "") then raise (ValueError "Crew member cannot be empty")
      else modify (λ self, set_crew_member (crew_member self ++ [name]) self)
  | _ => raise (TypeError "Crew member must be a string")
  end.

End Ship.

(** The ship after the calls [add_crew_member(v)] for each [v] of [vs],
    going on after a call that raised. *)
Definition after_boarding (vs : list value) (ship : Ship.t) : Ship.t :=
  fold_left (λ ship v, snd (Ship.add_crew_member v ship)) vs ship.

(** The name [add_crew_member] takes on board: a string that is not
    empty. *)
Definition boards (v : value) : option string :=
  match v with
  | VStr name => if decide (name = "") then None else Some name
  | _ => None
  end.

(** ** Sequences of calls on one player *)

(** One call of a [Player] method with its arguments. *)
Inductive player_call : Type :=
  | Train
  | Rest
  | Injure
  | IsExhausted
  | RecoverFromInjury
  | AgeUp
  | ChangePosition (new_position : value)
  | PromoteToCaptain
  | DemoteFromCaptain
  | RecordMatch (goals assists : Z)
  | ReceiveCard (card_type : value)
  | ResetCards
  | RenewContract (years : Z)
  | IsContractExpiring
  | DecrementContract
  | ChangeMorale (amount : value)
  | GetMoraleStatus
  | CheckRetirement
  | LoanTo (club_name : string) (duration : Z)
  | ReturnFromLoan
  | ReduceLoanDuration
  | GetMarketValue.

(** The call, with its result dropped. *)
Definition perform (c : player_call) : method Player.t unit :=
  match c with
  | Train => Player.train
  | Rest => Player.rest
  | Injure => Player.injure
  | IsExhausted => Player.is_exhausted ;; ret tt
  | RecoverFromInjury => Player.recover_from_injury
  | AgeUp => Player.age_up
  | ChangePosition v => Player.change_position v
  | PromoteToCaptain => Player.promote_to_captain
  | DemoteFromCaptain => Player.demote_from_captain
  | RecordMatch g a => Player.record_match g a
  | ReceiveCard v => Player.receive_card v
  | ResetCards => Player.reset_cards
  | RenewContract y => Player.renew_contract y
  | IsContractExpiring => Player.is_contract_expiring ;; ret tt
  | DecrementContract => Player.decrement_contract
  | ChangeMorale v => Player.change_morale v
  | GetMoraleStatus => Player.get_morale_status ;; ret tt
  | CheckRetirement => Player.check_retirement
  | LoanTo club d => Player.loan_to club d
  | ReturnFromLoan => Player.return_from_loan
  | ReduceLoanDuration => Player.reduce_loan_duration
  | GetMarketValue => Player.get_market_value
  end.

(** The player after a caller has made the calls [cs] one after the
    other, going on after a call that raised. *)
Definition after_calls (cs : list player_call) (p : Player.t) : Player.t :=
  fold_left (λ p c, snd (perform c p)) cs p.

(** The ranges the mutating methods keep. *)
Definition in_range (p : Player.t) : Prop :=
  0 ≤ Player.stamina p ≤ 100 ∧ 0 ≤ Player.morale p ≤ 100 ∧
  0 ≤ Player.overall_rating p ≤ 100.

(** ** What a sequence of calls adds up to *)

Definition Zsum (l : list Z) : Z := foldr Z.add 0 l.

(** The goals and assists a call enters in the player's record: those of
    a [record_match] whose arguments are not negative. *)
Definition recorded (c : player_call) : option (Z * Z) :=
  match c with
  | RecordMatch g a => if (g <? 0) || (a <? 0) then None else Some (g, a)
  | _ => None
  end.

(** The cards of a player are consistent: at most one pending yellow
    card, and a suspension exactly when there is a red card. *)
Definition cards_consistent (p : Player.t) : Prop :=
  (Player.yellow_cards p = 0 ∨ Player.yellow_cards p = 1) ∧
  0 ≤ Player.red_cards p ∧
  (Player.suspended p = true ↔ 1 ≤ Player.red_cards p).

(** The loan attributes of a player are consistent: on loan with a club
    and a positive duration, or not on loan with neither. *)
Definition loan_consistent (p : Player.t) : Prop :=
  if Player.on_loan p
  then is_Some (Player.loaned_to p) ∧ 0 < Player.loan_duration p
  else Player.loaned_to p = None ∧ Player.loan_duration p = 0.


(** ** Sequences of calls on one team *)

(** One call of a [Team] method with its arguments (the two averages,
    whose results are floats, are left out). *)
Inductive team_call : Type :=
  | AddPlayer (player : loc)
  | RemovePlayer (player : loc)
  | SetFormation (formation : string)
  | AssignStartingEleven (players : list loc)
  | UpdateMatchResult (goals_for goals_against : Z)
  | GetInjuredPlayers
  | GetPlayersByPosition (position : Position)
  | GetBestPlayer
  | SwapPlayers (player_out player_in : loc)
  | GetTopScorer
  | GetTopAssistant
  | GetMostActivePlayer
  | GetLoanedPlayers.

(** The call, with its result dropped, when the player objects are
    [objs]. *)
Definition perform_team (objs : gmap loc Player.t) (c : team_call)
  : method Team.t unit :=
  match c with
  | AddPlayer player => Team.add_player objs player
  | RemovePlayer player => Team.remove_player player
  | SetFormation formation => Team.set_formation formation
  | AssignStartingEleven players => Team.assign_starting_eleven objs players
  | UpdateMatchResult goals_for goals_against =>
      Team.update_match_result goals_for goals_against
  | GetInjuredPlayers => Team.get_injured_players objs ;; ret tt
  | GetPlayersByPosition position =>
      Team.get_players_by_position objs position ;; ret tt
  | GetBestPlayer => Team.get_best_player objs ;; ret tt
  | SwapPlayers player_out player_in =>
      Team.swap_players objs player_out player_in
  | GetTopScorer => Team.get_top_scorer objs ;; ret tt
  | GetTopAssistant => Team.get_top_assistant objs ;; ret tt
  | GetMostActivePlayer => Team.get_most_active_player objs ;; ret tt
  | GetLoanedPlayers => Team.get_loaned_players objs ;; ret tt
  end.

(** The team after the calls of a history, each made when the player
    objects were as given with it, going on after a call that raised. *)
Definition after_team_calls (history : list (gmap loc Player.t * team_call))
    (T : Team.t) : Team.t :=
  fold_left (λ T step, snd (perform_team (fst step) (snd step) T)) history T.

(** The score a call enters in the team's record. *)
Definition result_of (step : gmap loc Player.t * team_call) : option (Z * Z) :=
  match snd step with
  | UpdateMatchResult goals_for goals_against => Some (goals_for, goals_against)
  | _ => None
  end.


(** The condition [cond] holds of the player at [l]. *)
Definition holds (objs : gmap loc Player.t) (cond : Player.t → bool) (l : loc)
  : bool :=
  from_option cond false (objs !! l).

(** ** Scans that keep the first best element *)

(** [best = first; for x in others: if better x best: best = x] *)
Fixpoint pick {A} (better : A → A → bool) (best : A) (others : list A) : A :=
  match others with
  | [] => best
  | x :: others' => pick better (if better x best then x else best) others'
  end.

(** The statistic [f] of the object at [l] (0 where there is no player,
    a case the statements below rule out). *)
Definition stat (objs : gmap loc Player.t) (f : Player.t → Z) (l : loc) : Z :=
  from_option f 0 (objs !! l).

(** [l] is the earliest member of [roster] with the largest [f]. *)
Definition first_maximal (objs : gmap loc Player.t) (f : Player.t → Z)
    (roster : list loc) (l : loc) : Prop :=
  ∃ (i : nat) (p : Player.t),
    roster !! i = Some l ∧ objs !! l = Some p ∧
    (∀ j l' p', roster !! j = Some l' → objs !! l' = Some p' → f p' ≤ f p) ∧
    (∀ j l' p', (j < i)%nat → roster !! j = Some l' → objs !! l' = Some p' →
                f p' < f p).

(** The points and the goal difference of the team at [l] (0 where they
    are missing, a case the statements below rule out). *)
Definition points_of (objs : gmap loc Team.t) (l : loc) : Z :=
  from_option (λ T, default 0 (Team.attrs T !! "points")) 0 (objs !! l).

Definition diff_of (objs : gmap loc Team.t) (l : loc) : Z :=
  from_option League.goal_difference 0 (objs !! l).

(** The object at [l] is a team that has been given points. *)
Definition has_points (objs : gmap loc Team.t) (l : loc) : Prop :=
  ∃ T pts, objs !! l = Some T ∧ Team.attrs T !! "points" = Some pts.

(** The test by which [get_top_team] replaces [top_team] with [team], and
    the one by which [get_bottom_team] replaces [bottom_team]. *)
Definition above (objs : gmap loc Team.t) (team top_team : loc) : bool :=
  if points_of objs team >? points_of objs top_team then true
  else if points_of objs team =? points_of objs top_team then
    diff_of objs team >? diff_of objs top_team
  else false.

Definition below (objs : gmap loc Team.t) (team bottom_team : loc) : bool :=
  if points_of objs team <? points_of objs bottom_team then true
  else if points_of objs team =? points_of objs bottom_team then
    diff_of objs team <? diff_of objs bottom_team
  else false.

(** ** What a saved player comes back as *)

(** The player [Player.init] returns when it succeeds. *)
Definition constructed (name : string) (position : Position) (age rating : Z)
  : Player.t :=
  Player.mk name position age rating 100 false false 0 0 0 0 0 false 3 70
    false false None 0.

(** The player [load_team_from_file] builds from what was saved of [p]. *)
Definition reloaded (p : Player.t) : Player.t :=
  Player.set_injured (Player.injured p)
    (Player.set_stamina (Player.stamina p)
       (constructed (Player.name p) (Player.position p) (Player.age p)
          (Player.overall_rating p))).

(** The attributes that are saved, and the values [Player.init] gives to
    the others. *)
Definition same_saved_fields (p p' : Player.t) : Prop :=
  Player.name p' = Player.name p ∧ Player.position p' = Player.position p ∧
  Player.age p' = Player.age p ∧
  Player.overall_rating p' = Player.overall_rating p ∧
  Player.stamina p' = Player.stamina p ∧ Player.injured p' = Player.injured p.

Definition other_fields_default (p' : Player.t) : Prop :=
  Player.is_captain p' = false ∧ Player.goals p' = 0 ∧ Player.assists p' = 0 ∧
  Player.matches_played p' = 0 ∧ Player.yellow_cards p' = 0 ∧
  Player.red_cards p' = 0 ∧ Player.suspended p' = false ∧
  Player.contract_years_left p' = 3 ∧ Player.morale p' = 70 ∧
  Player.retired p' = false ∧ Player.on_loan p' = false ∧
  Player.loaned_to p' = None ∧ Player.loan_duration p' = 0.

(** ** Sample objects

    Concrete players, teams and worlds on which the statements below are
    run. *)

(** Eleven players at the references 1..11, rated 70..80. *)
Definition squad_objs : gmap loc Player.t :=
  list_to_map
    (map (λ i : nat, (i, constructed "Player" DEFENDER 28 (69 + Z.of_nat i)))
         (seq 1 11)).

Definition squad : Team.t :=
  Team.set_players (seq 1 11) (Team.init "FC Barcelona").

(** Three players, the last two with the same rating and goals. *)
Definition trio_objs : gmap loc Player.t :=
  <[1%nat := constructed "A" FORWARD 25 80]>
  (<[2%nat := Player.set_goals 4 (constructed "B" FORWARD 26 90)]>
  (<[3%nat := Player.set_goals 4 (constructed "C" MIDFIELDER 27 90)]> ∅)).

Definition trio : Team.t :=
  Team.set_players [1; 2; 3]%nat (Team.init "Trio").

(** Three teams, the first two level on points. *)
Definition sample_team (name : string) (points scored conceded : Z) : Team.t :=
  Team.set_attrs {["points" := points]}
    (Team.set_goals_conceded conceded
       (Team.set_goals_scored scored (Team.init name))).

Definition table_objs : gmap loc Team.t :=
  <[10%nat := sample_team "Team A" 10 10 8]>
  (<[11%nat := sample_team "Team B" 10 15 5]>
  (<[12%nat := sample_team "Team C" 7 3 9]> ∅)).

Definition table : League.t :=
  League.set_teams [10; 11; 12]%nat (League.init "La Liga").

(** A one-player team and, outside it, a player of 41 on whom
    [check_retirement] has been called. *)
Definition pair_objs : gmap loc Player.t :=
  <[1%nat := constructed "Out" DEFENDER 30 75]>
  (<[2%nat := snd (Player.check_retirement (constructed "In" FORWARD 41 85))]> ∅).

Definition solo : Team.t := Team.set_players [1%nat] (Team.init "Solo").

(** A manager of an empty team that was given [max_players = 20] from
    outside, and a player to buy. *)
Definition shop_team : Team.t :=
  Team.set_attrs {["max_players" := 20]} (Team.init "FC Barcelona").

Definition shop_world : Manager.world :=
  {| Manager.player_objs := {[1%nat := constructed "New" FORWARD 24 88]};
     Manager.team_objs := {[20%nat := shop_team]};
     Manager.files := ∅ |}.

Definition shop_manager : Manager.t := Manager.init 20%nat.

(** The same manager with a team nobody gave [max_players]. *)
Definition plain_world : Manager.world :=
  {| Manager.player_objs := {[1%nat := constructed "New" FORWARD 24 88]};
     Manager.team_objs := {[20%nat := Team.init "FC Barcelona"]};
     Manager.files := ∅ |}.

(** The squad with its manager, two of the players with a season behind
    them. *)
Definition club_world : Manager.world :=
  {| Manager.player_objs :=
       <[1%nat := Player.set_goals 8 (Player.set_stamina 60
                    (constructed "Pedri" MIDFIELDER 25 86))]>
       (<[2%nat := Player.set_injured true (Player.set_morale 40
                    (constructed "Gavi" MIDFIELDER 20 83))]> squad_objs);
     Manager.team_objs := {[20%nat := squad]};
     Manager.files := ∅ |}.

(** A goalkeeper constructed at 50 who has since aged a year, alone in a
    team. *)
Definition veteran : Player.t :=
  snd (Player.age_up (constructed "Vet" GOALKEEPER 50 80)).

Definition veteran_world : Manager.world :=
  {| Manager.player_objs := {[1%nat := veteran]};
     Manager.team_objs := {[20%nat := Team.set_players [1%nat] (Team.init "Old Boys")]};
     Manager.files := ∅ |}.

(** The table of three teams, the last of which was never given points. *)
Definition unranked_objs : gmap loc Team.t :=
  <[12%nat := Team.init "Team C"]> table_objs.

(** The squad lined up, with its manager. *)
Definition lineup_world : Manager.world :=
  Manager.set_team_objs {[20%nat := Team.set_starting_eleven (seq 1 11) squad]}
    club_world.

(** * Properties *)

(** ** Player *)

Ltac run := cbv [bind ret raise get modify].

(** Case analysis on the integer comparisons of the goal. *)
Ltac zcases :=
  repeat match goal with
  | |- context [?a <? ?b] => destruct (Z.ltb_spec a b)
  | |- context [?a >? ?b] => destruct (Z.gtb_spec a b)
  | |- context [?a <=? ?b] => destruct (Z.leb_spec a b)
  | |- context [?a >=? ?b] => destruct (Z.geb_spec a b)
  | |- context [?a =? ?b] => destruct (Z.eqb_spec a b)
  end.

(** C5: construction succeeds exactly for an age in 15..50 and a rating
    in 0..100, fails with a [ValueError] otherwise, and a constructed
    player has stamina 100, morale 70, three contract years, every
    counter at 0, every flag false and no loan club. *)
Theorem Player_init_spec (name : string) (position : Position) (a r : Z) :
  ((15 ≤ a ≤ 50 ∧ 0 ≤ r ≤ 100) ↔
     ∃ p, Player.init name position a r = Returns p) ∧
  (¬ (15 ≤ a ≤ 50 ∧ 0 ≤ r ≤ 100) ↔
     ∃ msg, Player.init name position a r = Raises (ValueError msg)) ∧
  (∀ p, Player.init name position a r = Returns p →
     p = {| Player.name := name; Player.position := position;
            Player.age := a; Player.overall_rating := r;
            Player.stamina := 100; Player.injured := false;
            Player.is_captain := false; Player.goals := 0;
            Player.assists := 0; Player.matches_played := 0;
            Player.yellow_cards := 0; Player.red_cards := 0;
            Player.suspended := false; Player.contract_years_left := 3;
            Player.morale := 70; Player.retired := false;
            Player.on_loan := false; Player.loaned_to := None;
            Player.loan_duration := 0 |}).
Proof.
  unfold Player.init.
  zcases; simpl; repeat split; intros;
    repeat match goal with
    | H : ∃ _, _ |- _ => destruct H
    | H : _ ∧ _ |- _ => destruct H
    end;
    try discriminate; try lia; try congruence; eauto.
Qed.

Lemma Player_init_witness :
  ∃ p, Player.init "Leo" FORWARD 35 99 = Returns p.
Proof.
  apply (proj1 (proj1 (Player_init_spec "Leo" FORWARD 35 99))). lia.
Defined.

(** What a successful construction returns. *)
Lemma Player_init_returns name position a r p :
  Player.init name position a r = Returns p →
  15 ≤ a ≤ 50 ∧ 0 ≤ r ≤ 100 ∧
  p = Player.mk name position a r 100 false false 0 0 0 0 0 false 3 70
        false false None 0.
Proof.
  unfold Player.init. zcases; simpl; intros Hp; try discriminate.
  inversion Hp. repeat split; lia.
Qed.



Lemma init_in_range name position a r p :
  Player.init name position a r = Returns p → in_range p.
Proof.
  intros Hp. apply Player_init_returns in Hp as (Ha & Hr & ->).
  unfold in_range; simpl. lia.
Qed.

Create HintDb player_methods.
#[local] Hint Unfold perform Player.train Player.rest Player.injure
  Player.is_exhausted Player.recover_from_injury Player.age_up
  Player.change_position Player.promote_to_captain
  Player.demote_from_captain Player.record_match Player.receive_card
  Player.reset_cards Player.renew_contract Player.is_contract_expiring
  Player.decrement_contract Player.change_morale Player.get_morale_status
  Player.check_retirement Player.loan_to Player.return_from_loan
  Player.reduce_loan_duration Player.get_market_value : player_methods.

(** Runs a player method on a player given field by field, splitting on
    every test the method makes. *)
Ltac run_player :=
  autounfold with player_methods; cbv [bind ret raise get modify]; cbn;
  repeat (first
    [ progress zcases
    | progress case_decide
    | progress cbn
    | match goal with
      | |- context [as_int ?v] => destruct v
      | |- context [as_position ?v] => destruct v
      | |- context [if ?b then _ else _] => destruct b eqn:?
      end ]).

Lemma perform_in_range c p : in_range p → in_range (snd (perform c p)).
Proof.
  unfold in_range. destruct p. simpl. intros Hp.
  destruct c; run_player; lia.
Qed.

Lemma after_calls_in_range cs p : in_range p → in_range (after_calls cs p).
Proof.
  revert p. induction cs as [| c cs IH]; intros p Hp; [done |].
  apply IH, perform_in_range, Hp.
Qed.

(** C6: after any sequence of method calls on a constructed player the
    stamina and the morale are within 0..100 (and so is the rating); in
    particular any number of [train] calls leaves the rating at most 100
    and the stamina at least 0. *)
Theorem stamina_morale_stay_in_range name position a r p :
  Player.init name position a r = Returns p →
  (∀ cs : list player_call,
     let p' := after_calls cs p in
     0 ≤ Player.stamina p' ≤ 100 ∧ 0 ≤ Player.morale p' ≤ 100 ∧
     0 ≤ Player.overall_rating p' ≤ 100) ∧
  (∀ n : nat,
     let p' := after_calls (replicate n Train) p in
     Player.overall_rating p' ≤ 100 ∧ 0 ≤ Player.stamina p').
Proof.
  intros Hp. apply init_in_range in Hp. split.
  - intros cs. apply after_calls_in_range, Hp.
  - intros n. destruct (after_calls_in_range (replicate n Train) p Hp) as (? & ? & ?).
    simpl. lia.
Qed.

Lemma stamina_morale_stay_in_range_witness :
  Player.init "Leo" FORWARD 35 99 = Returns (constructed "Leo" FORWARD 35 99) ∧
  (∀ cs : list player_call,
     let p' := after_calls cs (constructed "Leo" FORWARD 35 99) in
     0 ≤ Player.stamina p' ≤ 100 ∧ 0 ≤ Player.morale p' ≤ 100 ∧
     0 ≤ Player.overall_rating p' ≤ 100) ∧
  (∀ n : nat,
     let p' := after_calls (replicate n Train) (constructed "Leo" FORWARD 35 99) in
     Player.overall_rating p' ≤ 100 ∧ 0 ≤ Player.stamina p').
Proof.
  split; [reflexivity |].
  apply (stamina_morale_stay_in_range "Leo" FORWARD 35 99). reflexivity.
Defined.

(** ** First-best scans *)

Section pick.
Context {A : Type} (better : A → A → bool).
Hypothesis better_irrefl : ∀ x, better x x = false.
Hypothesis better_trans :
  ∀ x y z, better x y = true → better y z = true → better x z = true.
Hypothesis not_better_trans :
  ∀ x y z, better x y = false → better y z = false → better x z = false.

Lemma better_left x y z :
  better x y = true → better z y = false → better x z = true.
Proof.
  intros Hxy Hzy. destruct (better x z) eqn:Hxz; [done |].
  rewrite (not_better_trans x z y Hxz Hzy) in Hxy. done.
Qed.

Lemma not_better_below x y z :
  better x y = true → better x z = false → better y z = false.
Proof.
  intros Hxy Hxz. destruct (better y z) eqn:Hyz; [| done].
  rewrite (better_trans x y z Hxy Hyz) in Hxz. done.
Qed.

(** The scan returns the first element that no element beats. *)
Lemma pick_first_best first others :
  ∃ i : nat,
    (first :: others) !! i = Some (pick better first others) ∧
    (∀ j x, (first :: others) !! j = Some x →
            better x (pick better first others) = false) ∧
    (∀ j x, (j < i)%nat → (first :: others) !! j = Some x →
            better (pick better first others) x = true).
Proof.
  revert first. induction others as [| x rest IH]; intros first.
  - exists 0%nat. simpl. split; [done |]. split.
    + intros [| j] y Hy; simplify_eq/=. apply better_irrefl.
    + intros j y Hj. lia.
  - simpl. destruct (better x first) eqn:Hx.
    + destruct (IH x) as (i & Hi & Hmax & Hbefore).
      set (r := pick better x rest) in *.
      exists (S i). split; [done |]. split.
      * intros [| j] y Hy; simplify_eq/=.
        -- eapply not_better_below; [apply Hx |]. by apply (Hmax 0%nat).
        -- by apply (Hmax j).
      * intros [| j] y Hj Hy; simplify_eq/=.
        -- destruct i as [| i]; simplify_eq/=.
           ++ by rewrite <- Hi.
           ++ eapply better_trans; [| apply Hx]. apply (Hbefore 0%nat); [lia | done].
        -- apply (Hbefore j); [lia | done].
    + destruct (IH first) as (i & Hi & Hmax & Hbefore).
      set (r := pick better first rest) in *.
      destruct i as [| i].
      * exists 0%nat. simplify_eq/=. rewrite <- Hi in *. split; [done |]. split.
        -- intros [| [| j]] y Hy; simplify_eq/=; [apply better_irrefl | done |].
           by apply (Hmax (S j)).
        -- intros j y Hj. lia.
      * exists (S (S i)). split; [done |]. split.
        -- intros [| [| j]] y Hy; simplify_eq/=.
           ++ by apply (Hmax 0%nat).
           ++ eapply not_better_trans; [apply Hx |]. by apply (Hmax 0%nat).
           ++ by apply (Hmax (S j)).
        -- intros [| [| j]] y Hj Hy; simplify_eq/=.
           ++ apply (Hbefore 0%nat); [lia | done].
           ++ eapply better_left; [| apply Hx]. apply (Hbefore 0%nat); [lia | done].
           ++ apply (Hbefore (S j)); [lia | done].
Qed.
End pick.

(** ** Team *)

Section team_queries.
Variable objs : gmap loc Player.t.

Lemma player_attr_Some {S A} (l : loc) attr (f : Player.t → A) p (s : S) :
  objs !! l = Some p → Team.player_attr objs l attr f s = (Returns (f p), s).
Proof. intros Hl. unfold Team.player_attr. by rewrite Hl. Qed.

Lemma scan_loop attr f (T : Team.t) others first :
  (∀ l, l ∈ first :: others → is_Some (objs !! l)) →
  for_fold others first (λ best player,
    mine <- Team.player_attr objs player attr f ;;
    theirs <- Team.player_attr objs best attr f ;;
    ret (if mine >? theirs then player else best)) T
  = (Returns (pick (λ x y, stat objs f x >? stat objs f y) first others), T).
Proof.
  revert first. induction others as [| x rest IH]; intros first Hobjs; [done |].
  destruct (Hobjs first) as [pf Hpf]; [set_solver |].
  destruct (Hobjs x) as [px Hpx]; [set_solver |].
  cbn [for_fold pick]. unfold bind at 1. unfold bind at 1.
  rewrite (player_attr_Some x _ _ px) by done.
  unfold bind at 1. rewrite (player_attr_Some first _ _ pf) by done.
  unfold ret at 1.
  assert (stat objs f x = f px) as -> by (unfold stat; by rewrite Hpx).
  assert (stat objs f first = f pf) as -> by (unfold stat; by rewrite Hpf).
  apply IH. intros l [-> | Hl]%elem_of_cons.
  - destruct (f px >? f pf); [by exists px | by exists pf].
  - apply Hobjs. apply elem_of_cons; right. apply elem_of_cons; by right.
Qed.

Lemma scan_best_empty attr f T :
  Team.players T = [] → Team.scan_best objs attr f T = (Returns None, T).
Proof. intros HT. unfold Team.scan_best. run. by rewrite HT. Qed.

Lemma scan_best_first_maximal attr f T :
  Team.players T ≠ [] →
  (∀ l, l ∈ Team.players T → is_Some (objs !! l)) →
  ∃ l, Team.scan_best objs attr f T = (Returns (Some l), T) ∧
       first_maximal objs f (Team.players T) l.
Proof.
  intros Hne Hobjs. unfold Team.scan_best.
  destruct (Team.players T) as [| first others] eqn:HT; [done |].
  unfold bind at 1, get at 1. rewrite HT.
  unfold bind at 1. rewrite scan_loop by done. unfold ret.
  set (better := λ x y, stat objs f x >? stat objs f y).
  eexists. split; [reflexivity |].
  destruct (pick_first_best better) with (first := first) (others := others)
    as (i & Hi & Hmax & Hbefore).
  - intros x. unfold better. lia.
  - intros x y z. unfold better. lia.
  - intros x y z. unfold better. lia.
  - set (r := pick better first others) in *. clearbody r.
    destruct (Hobjs r) as [p Hp].
    { eapply list_elem_of_lookup_2, Hi. }
    exists i, p. split; [done |]. split; [done |].
    split.
    + intros j l' p' Hj Hl'. specialize (Hmax j l' Hj).
      unfold better, stat in Hmax. rewrite Hl', Hp in Hmax. simpl in Hmax. lia.
    + intros j l' p' Hlt Hj Hl'. specialize (Hbefore j l' Hlt Hj).
      unfold better, stat in Hbefore. rewrite Hl', Hp in Hbefore.
      simpl in Hbefore. lia.
Qed.
End team_queries.

(** The membership loop of [assign_starting_eleven]. *)
Section starting_eleven.
Variable objs : gmap loc Player.t.

Local Abbreviation check_member := (λ p : loc,
  self <- get ;;
  if negb (contains p (Team.players self)) then
    p_name <- Team.player_attr objs p "name" Player.name ;;
    raise (ValueError (p_name ++ " not in team.")%string)
  else ret tt).

Lemma check_all_members chosen T :
  (∀ p, p ∈ chosen → p ∈ Team.players T) →
  for_each chosen check_member T = (Returns tt, T).
Proof.
  induction chosen as [| p chosen IH]; intros Hin; [done |].
  cbn [for_each]. unfold bind at 1. run.
  unfold contains. rewrite bool_decide_eq_true_2 by (apply Hin; left).
  simpl. apply IH. intros q Hq. apply Hin. by right.
Qed.

Lemma check_foreign_member chosen T p :
  p ∈ chosen → p ∉ Team.players T →
  ∃ e, for_each chosen check_member T = (Raises e, T).
Proof.
  induction chosen as [| q chosen IH]; intros Hp Hout; [by inversion Hp |].
  cbn [for_each]. unfold bind at 1. run.
  unfold contains. destruct (decide (q ∈ Team.players T)) as [Hq | Hq].
  - rewrite bool_decide_eq_true_2 by done. simpl.
    apply IH; [| done]. apply elem_of_cons in Hp as [-> | Hp]; done.
  - rewrite bool_decide_eq_false_2 by done. simpl.
    unfold Team.player_attr. destruct (objs !! q); run; eauto.
Qed.
End starting_eleven.

Lemma assign_starting_eleven_raises (objs : gmap loc Player.t)
    (chosen : list loc) (T : Team.t) :
  length chosen ≠ 11%nat ∨ (∃ p, p ∈ chosen ∧ p ∉ Team.players T) →
  ∃ e, Team.assign_starting_eleven objs chosen T = (Raises e, T).
Proof.
  unfold Team.assign_starting_eleven. intros Hbad.
  destruct (Nat.eqb_spec (length chosen) 11) as [Hlen | Hlen]; cbn [negb].
  - destruct Hbad as [Hbad | (p & Hp & Hout)]; [done |].
    destruct (check_foreign_member objs chosen T p Hp Hout) as [e He].
    exists e. unfold bind at 1. by rewrite He.
  - run. eauto.
Qed.

Lemma assign_starting_eleven_returns (objs : gmap loc Player.t)
    (chosen : list loc) (T : Team.t) :
  length chosen = 11%nat → (∀ p, p ∈ chosen → p ∈ Team.players T) →
  Team.assign_starting_eleven objs chosen T
  = (Returns tt, Team.set_starting_eleven chosen T).
Proof.
  unfold Team.assign_starting_eleven. intros Hlen Hin.
  rewrite Hlen. cbn [Nat.eqb negb].
  unfold bind at 1. rewrite (check_all_members objs chosen T Hin). by run.
Qed.

(** C8: [assign_starting_eleven] raises, changing nothing, when the list
    has not exactly 11 members or has a member that is not on the roster;
    otherwise it returns and only [starting_eleven] changes, to the list
    given: the bench and the roster are as before. *)
Theorem assign_starting_eleven_spec (objs : gmap loc Player.t)
    (chosen : list loc) (T : Team.t) :
  (length chosen ≠ 11%nat ∨ (∃ p, p ∈ chosen ∧ p ∉ Team.players T) →
     ∃ e, Team.assign_starting_eleven objs chosen T = (Raises e, T)) ∧
  (length chosen = 11%nat → (∀ p, p ∈ chosen → p ∈ Team.players T) →
     ∃ T', Team.assign_starting_eleven objs chosen T = (Returns tt, T') ∧
           T' = Team.set_starting_eleven chosen T ∧
           Team.starting_eleven T' = chosen ∧
           Team.bench T' = Team.bench T ∧
           Team.players T' = Team.players T).
Proof.
  split.
  - apply assign_starting_eleven_raises.
  - intros Hlen Hin. eexists. split.
    + by apply assign_starting_eleven_returns.
    + done.
Qed.

Lemma assign_starting_eleven_witness :
  ∃ T', Team.assign_starting_eleven squad_objs (seq 1 11) squad = (Returns tt, T') ∧
        T' = Team.set_starting_eleven (seq 1 11) squad ∧
        Team.starting_eleven T' = seq 1 11 ∧
        Team.bench T' = Team.bench squad ∧
        Team.players T' = Team.players squad.
Proof.
  apply (proj2 (assign_starting_eleven_spec squad_objs (seq 1 11) squad)).
  - reflexivity.
  - intros p Hp. exact Hp.
Defined.

(** C9: on an empty roster each of the four queries returns [None]; on a
    roster of players each returns the earliest player among those with
    the largest rating, goals, assists or matches played respectively.
    None of them changes the team. *)
Theorem best_of_queries_spec (objs : gmap loc Player.t) (T : Team.t) :
  (Team.players T = [] →
     Team.get_best_player objs T = (Returns None, T) ∧
     Team.get_top_scorer objs T = (Returns None, T) ∧
     Team.get_top_assistant objs T = (Returns None, T) ∧
     Team.get_most_active_player objs T = (Returns None, T)) ∧
  (Team.players T ≠ [] →
   (∀ l, l ∈ Team.players T → is_Some (objs !! l)) →
     ∃ best scorer assistant active,
       Team.get_best_player objs T = (Returns (Some best), T) ∧
       first_maximal objs Player.overall_rating (Team.players T) best ∧
       Team.get_top_scorer objs T = (Returns (Some scorer), T) ∧
       first_maximal objs Player.goals (Team.players T) scorer ∧
       Team.get_top_assistant objs T = (Returns (Some assistant), T) ∧
       first_maximal objs Player.assists (Team.players T) assistant ∧
       Team.get_most_active_player objs T = (Returns (Some active), T) ∧
       first_maximal objs Player.matches_played (Team.players T) active).
Proof.
  split.
  - intros Hempty. repeat split; by apply scan_best_empty.
  - intros Hne Hobjs.
    destruct (scan_best_first_maximal objs "overall_rating" Player.overall_rating
                T Hne Hobjs) as (best & ? & ?).
    destruct (scan_best_first_maximal objs "goals" Player.goals
                T Hne Hobjs) as (scorer & ? & ?).
    destruct (scan_best_first_maximal objs "assists" Player.assists
                T Hne Hobjs) as (assistant & ? & ?).
    destruct (scan_best_first_maximal objs "matches_played" Player.matches_played
                T Hne Hobjs) as (active & ? & ?).
    exists best, scorer, assistant, active. repeat split; assumption.
Qed.

Lemma best_of_queries_witness :
  ∃ best scorer assistant active,
    Team.get_best_player trio_objs trio = (Returns (Some best), trio) ∧
    first_maximal trio_objs Player.overall_rating (Team.players trio) best ∧
    Team.get_top_scorer trio_objs trio = (Returns (Some scorer), trio) ∧
    first_maximal trio_objs Player.goals (Team.players trio) scorer ∧
    Team.get_top_assistant trio_objs trio = (Returns (Some assistant), trio) ∧
    first_maximal trio_objs Player.assists (Team.players trio) assistant ∧
    Team.get_most_active_player trio_objs trio = (Returns (Some active), trio) ∧
    first_maximal trio_objs Player.matches_played (Team.players trio) active.
Proof.
  apply (proj2 (best_of_queries_spec trio_objs trio)).
  - discriminate.
  - intros l Hl. apply list_elem_of_In in Hl. simpl in Hl.
    destruct Hl as [<- | [<- | [<- | []]]]; vm_compute; eauto.
Defined.

(** On the sample trio the tie between the second and the third player
    goes to the second. *)
Example best_of_trio :
  Team.get_best_player trio_objs trio = (Returns (Some 2%nat), trio) ∧
  Team.get_top_scorer trio_objs trio = (Returns (Some 2%nat), trio) ∧
  Team.get_top_assistant trio_objs trio = (Returns (Some 1%nat), trio).
Proof. vm_compute. done. Qed.

(** ** League *)

Section league_queries.
Variable objs : gmap loc Team.t.

Lemma above_true x y :
  above objs x y = true ↔
  points_of objs y < points_of objs x ∨
  (points_of objs x = points_of objs y ∧ diff_of objs y < diff_of objs x).
Proof. unfold above. zcases; split; intros; try done; lia. Qed.

Lemma above_false x y :
  above objs x y = false ↔
  points_of objs x < points_of objs y ∨
  (points_of objs x = points_of objs y ∧ diff_of objs x ≤ diff_of objs y).
Proof. unfold above. zcases; split; intros; try done; lia. Qed.

Lemma below_true x y :
  below objs x y = true ↔
  points_of objs x < points_of objs y ∨
  (points_of objs x = points_of objs y ∧ diff_of objs x < diff_of objs y).
Proof. unfold below. zcases; split; intros; try done; lia. Qed.

Lemma below_false x y :
  below objs x y = false ↔
  points_of objs y < points_of objs x ∨
  (points_of objs x = points_of objs y ∧ diff_of objs y ≤ diff_of objs x).
Proof. unfold below. zcases; split; intros; try done; lia. Qed.

Lemma team_extra_attr_Some {S} l T pts (s : S) :
  objs !! l = Some T → Team.attrs T !! "points" = Some pts →
  League.team_extra_attr objs l "points" s = (Returns pts, s).
Proof. intros Hl Hp. unfold League.team_extra_attr. by rewrite Hl, Hp. Qed.

Lemma team_attr_Some {S A} l attr (f : Team.t → A) T (s : S) :
  objs !! l = Some T → League.team_attr objs l attr f s = (Returns (f T), s).
Proof. intros Hl. unfold League.team_attr. by rewrite Hl. Qed.

Lemma points_of_Some l T pts :
  objs !! l = Some T → Team.attrs T !! "points" = Some pts →
  points_of objs l = pts.
Proof. intros Hl Hp. unfold points_of. by rewrite Hl; simpl; rewrite Hp. Qed.

Lemma diff_of_Some l T :
  objs !! l = Some T → diff_of objs l = League.goal_difference T.
Proof. intros Hl. unfold diff_of. by rewrite Hl. Qed.

Lemma top_loop (L : League.t) others first :
  (∀ l, l ∈ first :: others → has_points objs l) →
  for_fold others first (λ top_team team,
    team_points <- League.team_extra_attr objs team "points" ;;
    top_points <- League.team_extra_attr objs top_team "points" ;;
    if team_points >? top_points then ret team
    else if team_points =? top_points then
      top_diff <- League.team_attr objs top_team "goals_scored"
                    League.goal_difference ;;
      team_diff <- League.team_attr objs team "goals_scored"
                     League.goal_difference ;;
      ret (if team_diff >? top_diff then team else top_team)
    else ret top_team) L
  = (Returns (pick (above objs) first others), L).
Proof.
  revert first. induction others as [| x rest IH]; intros first Hobjs; [done |].
  destruct (Hobjs first) as (Tf & pf & Hf & Hpf); [by left |].
  destruct (Hobjs x) as (Tx & px & Hx & Hpx); [right; by left |].
  cbn [for_fold pick]. unfold bind at 1. unfold bind at 1.
  rewrite (team_extra_attr_Some x Tx px) by done.
  unfold bind at 1. rewrite (team_extra_attr_Some first Tf pf) by done.
  unfold above.
  rewrite (points_of_Some x Tx px), (points_of_Some first Tf pf) by done.
  rewrite (diff_of_Some x Tx), (diff_of_Some first Tf) by done.
  assert (∀ l, l ∈ x :: rest → has_points objs l) as Hx'.
  { intros l Hl. apply Hobjs. by right. }
  assert (∀ l, l ∈ first :: rest → has_points objs l) as Hf'.
  { intros l [-> | Hl]%elem_of_cons; apply Hobjs; [by left |]. right; by right. }
  destruct (px >? pf); [by apply IH |].
  destruct (px =? pf); [| by apply IH].
  unfold bind at 1. rewrite (team_attr_Some first _ _ Tf) by done.
  unfold bind at 1. rewrite (team_attr_Some x _ _ Tx) by done.
  unfold ret at 1.
  destruct (League.goal_difference Tx >? League.goal_difference Tf); by apply IH.
Qed.

Lemma bottom_loop (L : League.t) others first :
  (∀ l, l ∈ first :: others → has_points objs l) →
  for_fold others first (λ bottom_team team,
    team_points <- League.team_extra_attr objs team "points" ;;
    bottom_points <- League.team_extra_attr objs bottom_team "points" ;;
    if team_points <? bottom_points then ret team
    else if team_points =? bottom_points then
      bottom_diff <- League.team_attr objs bottom_team "goals_scored"
                       League.goal_difference ;;
      team_diff <- League.team_attr objs team "goals_scored"
                     League.goal_difference ;;
      ret (if team_diff <? bottom_diff then team else bottom_team)
    else ret bottom_team) L
  = (Returns (pick (below objs) first others), L).
Proof.
  revert first. induction others as [| x rest IH]; intros first Hobjs; [done |].
  destruct (Hobjs first) as (Tf & pf & Hf & Hpf); [by left |].
  destruct (Hobjs x) as (Tx & px & Hx & Hpx); [right; by left |].
  cbn [for_fold pick]. unfold bind at 1. unfold bind at 1.
  rewrite (team_extra_attr_Some x Tx px) by done.
  unfold bind at 1. rewrite (team_extra_attr_Some first Tf pf) by done.
  unfold below.
  rewrite (points_of_Some x Tx px), (points_of_Some first Tf pf) by done.
  rewrite (diff_of_Some x Tx), (diff_of_Some first Tf) by done.
  assert (∀ l, l ∈ x :: rest → has_points objs l) as Hx'.
  { intros l Hl. apply Hobjs. by right. }
  assert (∀ l, l ∈ first :: rest → has_points objs l) as Hf'.
  { intros l [-> | Hl]%elem_of_cons; apply Hobjs; [by left |]. right; by right. }
  destruct (px <? pf); [by apply IH |].
  destruct (px =? pf); [| by apply IH].
  unfold bind at 1. rewrite (team_attr_Some first _ _ Tf) by done.
  unfold bind at 1. rewrite (team_attr_Some x _ _ Tx) by done.
  unfold ret at 1.
  destruct (League.goal_difference Tx <? League.goal_difference Tf); by apply IH.
Qed.

(** The team a scan by [better] picks: it is in the league and no team
    of the league is [better]. *)
Lemma pick_in_league (better : loc → loc → bool) (first : loc) others :
  (∀ x, better x x = false) →
  (∀ x y z, better x y = true → better y z = true → better x z = true) →
  (∀ x y z, better x y = false → better y z = false → better x z = false) →
  pick better first others ∈ first :: others ∧
  ∀ l, l ∈ first :: others → better l (pick better first others) = false.
Proof.
  intros Hirr Htr Hntr.
  destruct (pick_first_best better Hirr Htr Hntr first others)
    as (i & Hi & Hmax & _).
  split; [by eapply list_elem_of_lookup_2 |].
  intros l [j Hj]%list_elem_of_lookup. by eapply Hmax.
Qed.

Lemma top_team_first_best (L : League.t) :
  League.teams L ≠ [] →
  (∀ l, l ∈ League.teams L → has_points objs l) →
  ∃ top, League.get_top_team objs L = (Returns (Some top), L) ∧
         top ∈ League.teams L ∧
         ∀ l, l ∈ League.teams L → above objs l top = false.
Proof.
  intros Hne Hobjs. unfold League.get_top_team.
  destruct (League.teams L) as [| first others] eqn:HL; [done |].
  unfold bind at 1, get at 1. rewrite HL.
  unfold bind at 1. rewrite top_loop by done. unfold ret.
  eexists. split; [reflexivity |]. apply pick_in_league.
  - intros x. apply above_false. lia.
  - intros x y z. rewrite !above_true. lia.
  - intros x y z. rewrite !above_false. lia.
Qed.

Lemma bottom_team_first_best (L : League.t) :
  League.teams L ≠ [] →
  (∀ l, l ∈ League.teams L → has_points objs l) →
  ∃ bottom, League.get_bottom_team objs L = (Returns (Some bottom), L) ∧
            bottom ∈ League.teams L ∧
            ∀ l, l ∈ League.teams L → below objs l bottom = false.
Proof.
  intros Hne Hobjs. unfold League.get_bottom_team.
  destruct (League.teams L) as [| first others] eqn:HL; [done |].
  unfold bind at 1, get at 1. rewrite HL.
  unfold bind at 1. rewrite bottom_loop by done. unfold ret.
  eexists. split; [reflexivity |]. apply pick_in_league.
  - intros x. apply below_false. lia.
  - intros x y z. rewrite !below_true. lia.
  - intros x y z. rewrite !below_false. lia.
Qed.
End league_queries.

(** C3: on an empty league both queries return [None].  On a league whose
    teams all carry points, [get_top_team] returns a team of the league
    such that every team has fewer points, or the same points and a goal
    difference that is not larger; [get_bottom_team] returns one such
    that every team has more points, or the same points and a goal
    difference that is not smaller.  Neither changes the league. *)
Theorem top_and_bottom_team_spec (objs : gmap loc Team.t) (L : League.t) :
  (League.teams L = [] →
     League.get_top_team objs L = (Returns None, L) ∧
     League.get_bottom_team objs L = (Returns None, L)) ∧
  (League.teams L ≠ [] →
   (∀ l, l ∈ League.teams L →
         ∃ T pts, objs !! l = Some T ∧ Team.attrs T !! "points" = Some pts) →
     ∃ top Ttop ptop bottom Tbottom pbottom,
       League.get_top_team objs L = (Returns (Some top), L) ∧
       top ∈ League.teams L ∧ objs !! top = Some Ttop ∧
       Team.attrs Ttop !! "points" = Some ptop ∧
       (∀ l T pts, l ∈ League.teams L → objs !! l = Some T →
          Team.attrs T !! "points" = Some pts →
          pts < ptop ∨
          (pts = ptop ∧
           Team.goals_scored T - Team.goals_conceded T
           ≤ Team.goals_scored Ttop - Team.goals_conceded Ttop)) ∧
       League.get_bottom_team objs L = (Returns (Some bottom), L) ∧
       bottom ∈ League.teams L ∧ objs !! bottom = Some Tbottom ∧
       Team.attrs Tbottom !! "points" = Some pbottom ∧
       (∀ l T pts, l ∈ League.teams L → objs !! l = Some T →
          Team.attrs T !! "points" = Some pts →
          pbottom < pts ∨
          (pts = pbottom ∧
           Team.goals_scored Tbottom - Team.goals_conceded Tbottom
           ≤ Team.goals_scored T - Team.goals_conceded T))).
Proof.
  split.
  - intros Hempty. unfold League.get_top_team, League.get_bottom_team. run.
    by rewrite Hempty.
  - intros Hne Hobjs.
    destruct (top_team_first_best objs L Hne Hobjs) as (top & Htop & Hin & Hmax).
    destruct (bottom_team_first_best objs L Hne Hobjs)
      as (bottom & Hbottom & Hin' & Hmin).
    destruct (Hobjs top Hin) as (Ttop & ptop & HT & Hp).
    destruct (Hobjs bottom Hin') as (Tbottom & pbottom & HT' & Hp').
    exists top, Ttop, ptop, bottom, Tbottom, pbottom.
    repeat split; try assumption.
    + intros l T pts Hl HlT Hpts. specialize (Hmax l Hl).
      apply above_false in Hmax.
      rewrite (points_of_Some objs l T pts), (points_of_Some objs top Ttop ptop),
        (diff_of_Some objs l T), (diff_of_Some objs top Ttop) in Hmax by done.
      unfold League.goal_difference in Hmax. lia.
    + intros l T pts Hl HlT Hpts. specialize (Hmin l Hl).
      apply below_false in Hmin.
      rewrite (points_of_Some objs l T pts),
        (points_of_Some objs bottom Tbottom pbottom),
        (diff_of_Some objs l T), (diff_of_Some objs bottom Tbottom) in Hmin by done.
      unfold League.goal_difference in Hmin. lia.
Qed.

Lemma top_and_bottom_team_witness :
  ∃ top Ttop ptop bottom Tbottom pbottom,
    League.get_top_team table_objs table = (Returns (Some top), table) ∧
    top ∈ League.teams table ∧ table_objs !! top = Some Ttop ∧
    Team.attrs Ttop !! "points" = Some ptop ∧
    (∀ l T pts, l ∈ League.teams table → table_objs !! l = Some T →
       Team.attrs T !! "points" = Some pts →
       pts < ptop ∨
       (pts = ptop ∧
        Team.goals_scored T - Team.goals_conceded T
        ≤ Team.goals_scored Ttop - Team.goals_conceded Ttop)) ∧
    League.get_bottom_team table_objs table = (Returns (Some bottom), table) ∧
    bottom ∈ League.teams table ∧ table_objs !! bottom = Some Tbottom ∧
    Team.attrs Tbottom !! "points" = Some pbottom ∧
    (∀ l T pts, l ∈ League.teams table → table_objs !! l = Some T →
       Team.attrs T !! "points" = Some pts →
       pbottom < pts ∨
       (pts = pbottom ∧
        Team.goals_scored Tbottom - Team.goals_conceded Tbottom
        ≤ Team.goals_scored T - Team.goals_conceded T)).
Proof.
  apply (proj2 (top_and_bottom_team_spec table_objs table)).
  - discriminate.
  - intros l Hl. apply list_elem_of_In in Hl. simpl in Hl.
    destruct Hl as [<- | [<- | [<- | []]]]; vm_compute; eauto.
Defined.

(** On the sample table the tie on 10 points goes to the team with the
    larger goal difference; the bottom team is the one with 7 points. *)
Example top_and_bottom_of_table :
  League.get_top_team table_objs table = (Returns (Some 11%nat), table) ∧
  League.get_bottom_team table_objs table = (Returns (Some 12%nat), table).
Proof. vm_compute. done. Qed.

(** ** Failures and partial mutation *)


Section team_failures.
Variable objs : gmap loc Player.t.






(** [swap_players] that raises because [player_out] is absent changes
    nothing. *)
Lemma swap_players_absent player_out player_in T :
  player_out ∉ Team.players T →
  Team.swap_players objs player_out player_in T
  = (Raises (ValueError "Player to remove is not in the team."), T).
Proof.
  intros Hout. unfold Team.swap_players. run. unfold contains.
  by rewrite bool_decide_eq_false_2.
Qed.

Lemma remove_player_present player T :
  player ∈ Team.players T →
  Team.remove_player player T
  = (Returns tt, Team.set_players (list_remove player (Team.players T)) T).
Proof.
  intros Hin. unfold Team.remove_player. run. unfold contains.
  by rewrite bool_decide_eq_true_2.
Qed.

Lemma swap_players_present player_out player_in T :
  player_out ∈ Team.players T →
  Team.swap_players objs player_out player_in T
  = Team.add_player objs player_in
      (Team.set_players (list_remove player_out (Team.players T)) T).
Proof.
  intros Hin. unfold Team.swap_players.
  unfold bind at 1, get at 1. unfold contains.
  rewrite bool_decide_eq_true_2 by done. cbn [negb].
  unfold bind at 1. by rewrite remove_player_present.
Qed.

(** No [Team] method assigns an attribute that [__init__] did not
    define. *)
Lemma Team_methods_keep_attrs T :
  (∀ player, Team.attrs (snd (Team.add_player objs player T)) = Team.attrs T) ∧
  (∀ player, Team.attrs (snd (Team.remove_player player T)) = Team.attrs T) ∧
  (∀ formation,
     Team.attrs (snd (Team.set_formation formation T)) = Team.attrs T) ∧
  (∀ chosen,
     Team.attrs (snd (Team.assign_starting_eleven objs chosen T)) = Team.attrs T) ∧
  (∀ goals_for goals_against,
     Team.attrs (snd (Team.update_match_result goals_for goals_against T))
     = Team.attrs T) ∧
  (∀ player_out player_in,
     Team.attrs (snd (Team.swap_players objs player_out player_in T))
     = Team.attrs T).
Proof.
  assert (∀ player T, Team.attrs (snd (Team.add_player objs player T))
                      = Team.attrs T) as Hadd.
  { intros player T0. unfold Team.add_player, Team.player_attr. run.
    destruct (contains player (Team.players T0)); [done |].
    destruct (objs !! player) as [p |]; [| done].
    destruct (Player.retired p); done. }
  repeat split.
  - intros player. apply Hadd.
  - intros player. unfold Team.remove_player. run.
    destruct (contains player (Team.players T)); done.
  - intros formation. unfold Team.set_formation. run. case_bool_decide; done.
  - intros chosen.
    destruct (decide (length chosen = 11%nat
                      ∧ Forall (λ p, p ∈ Team.players T) chosen))
      as [[Hlen Hin] | Hbad].
    + rewrite Forall_forall in Hin.
      by rewrite (assign_starting_eleven_returns objs chosen T Hlen Hin).
    + destruct (assign_starting_eleven_raises objs chosen T) as [e ->]; [| done].
      apply not_and_l in Hbad as [Hlen | Hout]; [by left | right].
      apply not_Forall_Exists, Exists_exists in Hout; [done | apply _].
  - intros goals_for goals_against. unfold Team.update_match_result. run.
    zcases; done.
  - intros player_out player_in.
    destruct (decide (player_out ∈ Team.players T)) as [Hin | Hout].
    + rewrite swap_players_present by done. by rewrite Hadd.
    + by rewrite swap_players_absent.
Qed.


End team_failures.

Section league_failures.
Variable objs : gmap loc Team.t.

Lemma add_team_raise_unchanged team L :
  raised (fst (League.add_team objs team L)) →
  snd (League.add_team objs team L) = L.
Proof.
  unfold League.add_team. run. case_bool_decide; [| done]. cbn [negb].
  destruct (contains team (League.teams L)); done.
Qed.

Lemma remove_team_raise_unchanged team L :
  raised (fst (League.remove_team team L)) →
  snd (League.remove_team team L) = L.
Proof.
  unfold League.remove_team. run.
  destruct (contains team (League.teams L)); done.
Qed.

Lemma replace_team_raise_unchanged old_team new_team L :
  raised (fst (League.replace_team old_team new_team L)) →
  snd (League.replace_team old_team new_team L) = L.
Proof.
  unfold League.replace_team. run.
  destruct (contains old_team (League.teams L)); [| done]. cbn [negb].
  destruct (list_index old_team (League.teams L)); done.
Qed.
End league_failures.

(** C1, at a failing input: the team [solo] has the single player 1 and
    player 2 is retired.  [swap_players(1, 2)] raises, and the roster it
    leaves is empty: player 1 was removed before [add_player] rejected
    player 2. *)
Theorem swap_players_partial_mutation :
  Team.players solo = [1%nat] ∧
  Team.swap_players pair_objs 1%nat 2%nat solo
  = (Raises (ValueError "Cannot add retired player."),
     Team.set_players [] solo) ∧
  Team.players (snd (Team.swap_players pair_objs 1%nat 2%nat solo)) ≠ Team.players solo.
Proof.
  split; [reflexivity |]. split; [reflexivity |]. vm_compute. discriminate.
Qed.

(** ** Manager *)

(** [Team.__init__] defines no [max_players] (nor any other outside
    attribute), and no [Team] method assigns one. *)
Lemma Team_init_attrs name : Team.attrs (Team.init name) = ∅.
Proof. reflexivity. Qed.

Lemma manager_team_attr_Some {A} l attr (f : Team.t → A) T (s : Manager.state) :
  Manager.team_objs (snd s) !! l = Some T →
  Manager.team_attr l attr f s = (Returns (f T), s).
Proof. intros Hl. unfold Manager.team_attr, Manager.get_world. run. by rewrite Hl. Qed.

(** C10, as the code has it: when the managed team carries no
    [max_players] attribute, as is the case unless one was assigned to
    the team object from outside the class, buying a player who is not on
    the roster raises [AttributeError] at the capacity check, whatever
    the price; the roster, the budget and everything else stay as they
    were. *)
Theorem buy_player_without_max_players (m : Manager.t) (w : Manager.world)
    (T : Team.t) (player : loc) (price : Z) :
  Manager.team_objs w !! Manager.team m = Some T →
  Team.attrs T !! "max_players" = None →
  player ∉ Team.players T →
  Manager.buy_player player price (m, w)
  = (Raises (AttributeError "max_players"), (m, w)).
Proof.
  intros HT Hattr Hout. unfold Manager.buy_player.
  unfold bind at 1, Manager.get_self at 1. cbn [fst snd].
  unfold bind at 1. rewrite (manager_team_attr_Some _ _ _ T) by done.
  unfold contains. rewrite bool_decide_eq_false_2 by done.
  unfold bind at 1. rewrite (manager_team_attr_Some _ _ _ T) by done.
  unfold bind at 1. unfold Manager.team_extra_attr, Manager.get_world. run.
  cbn [snd]. by rewrite HT, Hattr.
Qed.

Lemma buy_player_without_max_players_witness :
  Manager.buy_player 1%nat 30 (shop_manager, plain_world)
  = (Raises (AttributeError "max_players"), (shop_manager, plain_world)).
Proof.
  apply (buy_player_without_max_players shop_manager plain_world
           (Team.init "FC Barcelona") 1%nat 30).
  - reflexivity.
  - reflexivity.
  - vm_compute. intros Hin. inversion Hin.
Defined.

(** C10 as stated fails: with [max_players = 20] assigned to the team
    from outside, buying player 1, who is not on the roster, for 30
    returns, puts the player on the roster and takes 30 off the budget. *)
Lemma buy_player_with_max_players :
  Manager.team_objs shop_world !! Manager.team shop_manager = Some shop_team ∧
  (1%nat ∉ Team.players shop_team) ∧
  Manager.buy_player 1%nat 30 (shop_manager, shop_world)
  = (Returns tt,
     (Manager.set_budget 70 shop_manager,
      Manager.set_team_objs {[20%nat := Team.set_players [1%nat] shop_team]}
        shop_world)).
Proof.
  split; [reflexivity |]. split.
  - vm_compute. intros Hin. inversion Hin.
  - vm_compute. reflexivity.
Qed.

(** ** Saving and loading a team *)

Lemma Position_getitem_name position :
  Position_getitem (Position_name position) = Returns position.
Proof. by destruct position. Qed.

Lemma Player_init_valid name position a r :
  15 ≤ a ≤ 50 → 0 ≤ r ≤ 100 →
  Player.init name position a r = Returns (constructed name position a r).
Proof. intros Ha Hr. unfold Player.init. zcases; try lia. reflexivity. Qed.

Lemma fresh_loc_not_player (w : Manager.world) :
  Manager.fresh_loc w ∉ dom (Manager.player_objs w).
Proof.
  unfold Manager.fresh_loc. intros Hin.
  apply (is_fresh (dom (Manager.player_objs w) ∪ dom (Manager.team_objs w))).
  set_solver.
Qed.

Lemma reloaded_fields p :
  same_saved_fields p (reloaded p) ∧ other_fields_default (reloaded p).
Proof. unfold same_saved_fields, other_fields_default. by destruct p. Qed.

Section save_and_load.
Import Manager.

(** The objects at the references of a roster. *)
Lemma roster_objects (objs : gmap loc Player.t) (P : Player.t → Prop) roster :
  (∀ l, l ∈ roster → ∃ p, objs !! l = Some p ∧ P p) →
  ∃ ps, Forall2 (λ l p, objs !! l = Some p) roster ps ∧ Forall P ps.
Proof.
  induction roster as [| l roster IH]; intros Hobjs.
  - exists []. split; constructor.
  - destruct (Hobjs l) as (p & Hp & HP); [by left |].
    destruct IH as (ps & Hps & HPs).
    { intros l' Hl'. apply Hobjs. by right. }
    exists (p :: ps). split; by constructor.
Qed.

Lemma save_entries (s : state) roster ps :
  Forall2 (λ l p, player_objs (snd s) !! l = Some p) roster ps →
  for_list roster (λ p, player_attr p "name" entry_of) s
  = (Returns (map entry_of ps), s).
Proof.
  induction 1 as [| l p roster ps Hl _ IH]; [done |].
  cbn [for_list map]. unfold bind at 1.
  unfold player_attr at 1, get_world. run. rewrite Hl, IH. done.
Qed.

Lemma save_team_to_file_returns filename (m : Manager.t) (w : world) T ps :
  team_objs w !! team m = Some T →
  Forall2 (λ l p, player_objs w !! l = Some p) (Team.players T) ps →
  save_team_to_file filename (m, w)
  = (Returns tt,
     (m, set_files
           (<[filename := {| doc_team_name := Team.name T;
                             doc_players := map entry_of ps |}]> (files w)) w)).
Proof.
  intros HT Hps. unfold save_team_to_file.
  unfold bind at 1, get_self at 1. cbn [fst].
  unfold bind at 1. rewrite (manager_team_attr_Some _ _ _ T) by done.
  unfold bind at 1. rewrite (manager_team_attr_Some _ _ _ T) by done.
  unfold bind at 1. rewrite (save_entries (m, w) _ ps) by done.
  reflexivity.
Qed.

(** One turn of the loop of [load_team_from_file], for what was saved
    of a player [p] that the constructor accepts. *)
Lemma load_entry (s : state) (team' : loc) (T0 : Team.t) (p : Player.t) :
  team_objs (snd s) !! team' = Some T0 →
  (∀ l, l ∈ Team.players T0 → l ∈ dom (player_objs (snd s))) →
  15 ≤ Player.age p ≤ 50 → 0 ≤ Player.overall_rating p ≤ 100 →
  (position <- lift (Position_getitem (entry_position (entry_of p))) ;;
   fields <- lift (Player.init (entry_name (entry_of p)) position
                     (entry_age (entry_of p)) (entry_rating (entry_of p))) ;;
   player <- new_player fields ;;
   call_player player "stamina"
     (modify (Player.set_stamina (entry_stamina (entry_of p)))) ;;
   call_player player "injured"
     (modify (Player.set_injured (entry_injured (entry_of p)))) ;;
   call_team team' "add_player" (λ objs, Team.add_player objs player)) s
  = (Returns tt,
     (fst s,
      set_team_objs
        (<[team' := Team.set_players
                      (Team.players T0 ++ [fresh_loc (snd s)]) T0]>
           (team_objs (snd s)))
        (set_player_objs
           (<[fresh_loc (snd s) := reloaded p]> (player_objs (snd s)))
           (snd s)))).
Proof.
  intros HT Hdom Ha Hr. destruct s as [m w]. cbn [fst snd] in *.
  pose proof (fresh_loc_not_player w) as Hnew.
  destruct w as [players teams docs].
  cbn [player_objs team_objs] in HT, Hdom, Hnew.
  cbn [entry_of entry_position entry_name entry_age entry_rating
       entry_stamina entry_injured].
  unfold bind at 1. rewrite Position_getitem_name. cbn [lift]. unfold ret at 1.
  unfold bind at 1. rewrite Player_init_valid by done. cbn [lift]. unfold ret at 1.
  set (l := fresh_loc _) in *.
  assert (l ∉ Team.players T0) as Hfresh.
  { intros Hin. by apply Hnew, Hdom. }
  cbv [bind ret new_player get_world modify_world call_player call_team
       modify fst snd player_objs team_objs files set_player_objs].
  rewrite lookup_insert_eq, insert_insert_eq.
  rewrite lookup_insert_eq, insert_insert_eq. rewrite HT.
  unfold Team.add_player, Team.player_attr, contains.
  cbv [bind get ret raise modify].
  rewrite bool_decide_eq_false_2 by done.
  rewrite lookup_insert_eq. reflexivity.
Qed.

Lemma load_loop (team' : loc) (ps : list Player.t) :
  ∀ (s : state) (T0 : Team.t),
  Forall (λ p, 15 ≤ Player.age p ≤ 50 ∧ 0 ≤ Player.overall_rating p ≤ 100) ps →
  team_objs (snd s) !! team' = Some T0 →
  (∀ l, l ∈ Team.players T0 → l ∈ dom (player_objs (snd s))) →
  ∃ s' ls,
    for_each (map entry_of ps) (λ p,
      position <- lift (Position_getitem (entry_position p)) ;;
      fields <- lift (Player.init (entry_name p) position
                        (entry_age p) (entry_rating p)) ;;
      player <- new_player fields ;;
      call_player player "stamina" (modify (Player.set_stamina (entry_stamina p))) ;;
      call_player player "injured" (modify (Player.set_injured (entry_injured p))) ;;
      call_team team' "add_player" (λ objs, Team.add_player objs player)) s
    = (Returns tt, s') ∧
    fst s' = fst s ∧
    team_objs (snd s') !! team'
    = Some (Team.set_players (Team.players T0 ++ ls) T0) ∧
    Forall2 (λ l p, player_objs (snd s') !! l = Some (reloaded p)) ls ps ∧
    (∀ l p, player_objs (snd s) !! l = Some p →
            player_objs (snd s') !! l = Some p).
Proof.
  induction ps as [| p ps IH]; intros s T0 Hvalid HT Hdom.
  - exists s, []. rewrite app_nil_r. split; [done |]. split; [done |].
    split; [| split; [constructor | done]].
    rewrite HT. by destruct T0.
  - apply Forall_cons in Hvalid as [[Ha Hr] Hvalid].
    cbn [map for_each]. unfold bind at 1.
    rewrite (load_entry s team' T0 p HT Hdom Ha Hr).
    set (l := fresh_loc (snd s)).
    set (s1 := (fst s, _)).
    destruct (IH s1 (Team.set_players (Team.players T0 ++ [l]) T0) Hvalid)
      as (s' & ls & Hrun & Hself & Hteam & Hls & Hkeep).
    { subst s1. cbn [snd team_objs set_team_objs]. apply lookup_insert_eq. }
    { subst s1. cbn [snd player_objs set_team_objs set_player_objs].
      intros l' Hl'. rewrite dom_insert_L.
      cbn [Team.players Team.set_players] in Hl'.
      apply elem_of_app in Hl' as [Hl' | Hl'].
      - apply elem_of_union_r, Hdom, Hl'.
      - apply list_elem_of_singleton in Hl' as ->. apply elem_of_union_l.
        by apply elem_of_singleton. }
    exists s', (l :: ls). split; [exact Hrun |]. split; [exact Hself |].
    assert (player_objs (snd s1) !! l = Some (reloaded p)) as Hl.
    { subst s1. cbn [snd player_objs set_team_objs set_player_objs].
      apply lookup_insert_eq. }
    split; [| split].
    + rewrite Hteam. cbn [Team.players Team.set_players].
      rewrite <- app_assoc. by destruct T0.
    + constructor; [by apply Hkeep | exact Hls].
    + intros l' p' Hl'. apply Hkeep. subst s1.
      cbn [snd player_objs set_team_objs set_player_objs].
      rewrite lookup_insert_ne; [done |].
      intros <-. apply (fresh_loc_not_player (snd s)).
      apply elem_of_dom. by exists p'.
Qed.

End save_and_load.

(** C2, as the code has it: for a team whose players all have an age in
    15..50 and a rating in 0..100, saving the team and loading the file
    returns a new team with the same name and as many players, in the
    same order; each loaded player has the name, position, age, rating,
    stamina and injured flag of the original and, in every other
    attribute, the value the constructor gives. *)
Theorem save_then_load_round_trip (m : Manager.t) (w : Manager.world)
    (filename : string) (T : Team.t) :
  Manager.team_objs w !! Manager.team m = Some T →
  (∀ l, l ∈ Team.players T →
        ∃ p, Manager.player_objs w !! l = Some p ∧
             15 ≤ Player.age p ≤ 50 ∧ 0 ≤ Player.overall_rating p ≤ 100) →
  ∃ s1,
    Manager.save_team_to_file filename (m, w) = (Returns tt, s1) ∧
  ∃ s2 loaded T',
    Manager.load_team_from_file filename s1 = (Returns loaded, s2) ∧
    Manager.team_objs (snd s2) !! loaded = Some T' ∧
    Team.name T' = Team.name T ∧
    length (Team.players T') = length (Team.players T) ∧
    ∀ i l p,
      Team.players T !! i = Some l → Manager.player_objs w !! l = Some p →
      ∃ l' p',
        Team.players T' !! i = Some l' ∧
        Manager.player_objs (snd s2) !! l' = Some p' ∧
        same_saved_fields p p' ∧ other_fields_default p'.
Proof.
  intros HT Hobjs.
  destruct (roster_objects (Manager.player_objs w)
              (λ p, 15 ≤ Player.age p ≤ 50 ∧ 0 ≤ Player.overall_rating p ≤ 100)
              (Team.players T) Hobjs) as (ps & Hps & Hvalid).
  set (data := {| Manager.doc_team_name := Team.name T;
                  Manager.doc_players := map Manager.entry_of ps |}).
  set (w1 := Manager.set_files (<[filename := data]> (Manager.files w)) w).
  exists (m, w1).
  split; [by apply save_team_to_file_returns |].
  unfold Manager.load_team_from_file.
  unfold bind at 1, Manager.get_world at 1. cbn [snd].
  assert (Manager.files w1 !! filename = Some data) as ->.
  { subst w1. destruct w. apply lookup_insert_eq. }
  unfold bind at 1. unfold Manager.new_team.
  unfold bind at 1, Manager.get_world at 1. cbn [snd].
  unfold bind at 1, Manager.modify_world at 1. cbn [fst snd]. unfold ret at 1.
  set (loaded := Manager.fresh_loc w1).
  set (s0 := (m, _)).
  destruct (load_loop loaded ps s0 (Team.init (Team.name T)) Hvalid)
    as (s2 & ls & Hrun & _ & Hteam & Hls & _).
  { subst s0. destruct w1. apply lookup_insert_eq. }
  { intros l Hl. inversion Hl. }
  subst data. cbn [Manager.doc_players Manager.doc_team_name].
  unfold bind at 1. rewrite Hrun. unfold ret.
  eexists s2, loaded, _. split; [reflexivity |].
  split; [exact Hteam |]. split; [reflexivity |].
  cbn [Team.players Team.set_players Team.init app]. split.
  - rewrite (Forall2_length _ _ _ Hls). symmetry. apply (Forall2_length _ _ _ Hps).
  - intros i l p Hi Hl.
    destruct (Forall2_lookup_l _ _ _ _ _ Hps Hi) as (p0 & Hp0 & Hl0).
    assert (p0 = p) as -> by congruence.
    destruct (Forall2_lookup_r _ _ _ _ _ Hls Hp0) as (l' & Hl' & Hp').
    exists l', (reloaded p). split; [exact Hl' |]. split; [exact Hp' |].
    apply reloaded_fields.
Qed.

Lemma save_then_load_round_trip_witness :
  ∃ s1,
    Manager.save_team_to_file "team.json" (Manager.init 20%nat, club_world)
    = (Returns tt, s1) ∧
  ∃ s2 loaded T',
    Manager.load_team_from_file "team.json" s1 = (Returns loaded, s2) ∧
    Manager.team_objs (snd s2) !! loaded = Some T' ∧
    Team.name T' = Team.name squad ∧
    length (Team.players T') = length (Team.players squad) ∧
    ∀ i l p,
      Team.players squad !! i = Some l →
      Manager.player_objs club_world !! l = Some p →
      ∃ l' p',
        Team.players T' !! i = Some l' ∧
        Manager.player_objs (snd s2) !! l' = Some p' ∧
        same_saved_fields p p' ∧ other_fields_default p'.
Proof.
  apply (save_then_load_round_trip (Manager.init 20%nat) club_world "team.json" squad).
  - reflexivity.
  - intros l Hl. apply list_elem_of_In in Hl. simpl in Hl.
    repeat (destruct Hl as [<- | Hl];
            [vm_compute; eexists; split; [reflexivity | repeat split; discriminate] |]).
    destruct Hl.
Defined.

(** C2 as stated fails: a goalkeeper constructed at the age of 50 is 51
    after [age_up]; the team is saved, and loading the file raises,
    because the constructor rejects the saved age. *)
Lemma save_then_load_veteran_raises :
  Player.init "Vet" GOALKEEPER 50 80 = Returns (constructed "Vet" GOALKEEPER 50 80) ∧
  veteran = snd (Player.age_up (constructed "Vet" GOALKEEPER 50 80)) ∧
  Player.age veteran = 51 ∧
  ∃ s1,
    Manager.save_team_to_file "team.json" (Manager.init 20%nat, veteran_world)
    = (Returns tt, s1) ∧
    fst (Manager.load_team_from_file "team.json" s1)
    = Raises (ValueError "Invalid age for player.").
Proof.
  split; [reflexivity |]. split; [reflexivity |]. split; [reflexivity |].
  eexists. split; [vm_compute; reflexivity |]. vm_compute. reflexivity.
Qed.

(** * Further properties *)

(** ** Player: which calls raise *)


(** ** Player: what sequences of calls add up to *)

Lemma after_calls_cons c cs p :
  after_calls (c :: cs) p = after_calls cs (snd (perform c p)).
Proof. reflexivity. Qed.


Lemma perform_recorded c p :
  let p' := snd (perform c p) in
  Player.matches_played p'
  = Player.matches_played p + from_option (λ _, 1) 0 (recorded c) ∧
  Player.goals p' = Player.goals p + from_option fst 0 (recorded c) ∧
  Player.assists p' = Player.assists p + from_option snd 0 (recorded c).
Proof. destruct p, c; run_player; repeat split; lia. Qed.

Lemma after_calls_recorded cs p :
  let p' := after_calls cs p in
  Player.matches_played p'
  = Player.matches_played p + Z.of_nat (length (omap recorded cs)) ∧
  Player.goals p' = Player.goals p + Zsum (fst <$> omap recorded cs) ∧
  Player.assists p' = Player.assists p + Zsum (snd <$> omap recorded cs).
Proof.
  revert p. induction cs as [| c cs IH]; intros p.
  - simpl. lia.
  - rewrite after_calls_cons. cbn zeta in *.
    destruct (IH (snd (perform c p))) as (Hm & Hg & Ha).
    destruct (perform_recorded c p) as (Hm1 & Hg1 & Ha1).
    rewrite Hm, Hg, Ha, Hm1, Hg1, Ha1. cbn [omap list_omap].
    destruct (recorded c) as [[g a] |]; cbn [from_option fst snd fmap list_fmap
      Zsum foldr length]; fold (Zsum (fst <$> omap recorded cs));
      fold (Zsum (snd <$> omap recorded cs)); lia.
Qed.

(** X2: on a constructed player, after any sequence of calls,
    [matches_played] is the number of [record_match] calls whose
    arguments were not negative, and [goals] and [assists] are the sums
    of the goals and assists of those calls: a rejected [record_match]
    and every other method leave the three counters alone. *)
Theorem match_record_adds_up name position a r p (cs : list player_call) :
  Player.init name position a r = Returns p →
  let p' := after_calls cs p in
  Player.matches_played p' = Z.of_nat (length (omap recorded cs)) ∧
  Player.goals p' = Zsum (fst <$> omap recorded cs) ∧
  Player.assists p' = Zsum (snd <$> omap recorded cs).
Proof.
  intros Hp. pose proof (after_calls_recorded cs p) as H.
  apply Player_init_returns in Hp as (_ & _ & ->).
  cbn zeta in *. destruct H as (-> & -> & ->). simpl. lia.
Qed.

Lemma match_record_adds_up_witness :
  let p' := after_calls [RecordMatch 2 1; RecordMatch (-1) 0; Train; RecordMatch 0 3]
              (constructed "Leo" FORWARD 35 99) in
  Player.matches_played p'
  = Z.of_nat (length (omap recorded
      [RecordMatch 2 1; RecordMatch (-1) 0; Train; RecordMatch 0 3])) ∧
  Player.goals p'
  = Zsum (fst <$> omap recorded
      [RecordMatch 2 1; RecordMatch (-1) 0; Train; RecordMatch 0 3]) ∧
  Player.assists p'
  = Zsum (snd <$> omap recorded
      [RecordMatch 2 1; RecordMatch (-1) 0; Train; RecordMatch 0 3]).
Proof.
  apply (match_record_adds_up "Leo" FORWARD 35 99). reflexivity.
Defined.

(** ** Player: invariants over sequences of calls *)

Lemma after_calls_invariant (I : Player.t → Prop) :
  (∀ c p, I p → I (snd (perform c p))) →
  ∀ cs p, I p → I (after_calls cs p).
Proof.
  intros Hstep cs. induction cs as [| c cs IH]; intros p Hp; [done |].
  rewrite after_calls_cons. by apply IH, Hstep.
Qed.

Lemma perform_cards_consistent c p :
  cards_consistent p → cards_consistent (snd (perform c p)).
Proof.
  unfold cards_consistent. destruct p. simpl. intros (Hy & Hr & Hs).
  destruct c; run_player; try done; cbn in *;
    (split; [lia |]; split; [lia |];
     first [exact Hs | split; intros; first [done | lia]]).
Qed.

(** X3: on a constructed player, after any sequence of calls, there is
    at most one pending yellow card (the second one is turned into a red
    card at once), the red cards are not negative, and the player is
    suspended exactly when there is at least one red card. *)
Theorem cards_stay_consistent name position a r p (cs : list player_call) :
  Player.init name position a r = Returns p →
  let p' := after_calls cs p in
  (Player.yellow_cards p' = 0 ∨ Player.yellow_cards p' = 1) ∧
  0 ≤ Player.red_cards p' ∧
  (Player.suspended p' = true ↔ 1 ≤ Player.red_cards p').
Proof.
  intros Hp. apply (after_calls_invariant cards_consistent).
  - apply perform_cards_consistent.
  - apply Player_init_returns in Hp as (_ & _ & ->).
    unfold cards_consistent. simpl. split; [by left |]. split; [lia |].
    split; intros; first [done | lia].
Qed.

Lemma cards_stay_consistent_witness :
  let p' := after_calls [ReceiveCard (VStr "yellow"); ReceiveCard (VStr "red");
                         ReceiveCard (VStr "yellow"); ReceiveCard (VStr "yellow")]
              (constructed "Leo" FORWARD 35 99) in
  (Player.yellow_cards p' = 0 ∨ Player.yellow_cards p' = 1) ∧
  0 ≤ Player.red_cards p' ∧
  (Player.suspended p' = true ↔ 1 ≤ Player.red_cards p').
Proof.
  apply (cards_stay_consistent "Leo" FORWARD 35 99). reflexivity.
Defined.

Lemma perform_loan_consistent c p :
  loan_consistent p → loan_consistent (snd (perform c p)).
Proof.
  unfold loan_consistent. destruct p. simpl. intros Hl.
  destruct on_loan, Hl as [Hclub Hduration];
    destruct c; run_player; try done; cbn in *;
    try (split; first [done | lia | eauto]).
Qed.

(** X4: on a constructed player, after any sequence of calls, the loan
    attributes agree: a player on loan has a club and a positive
    remaining duration, and a player not on loan has no club and
    duration 0. *)
Theorem loan_state_stays_consistent name position a r p (cs : list player_call) :
  Player.init name position a r = Returns p →
  let p' := after_calls cs p in
  if Player.on_loan p'
  then is_Some (Player.loaned_to p') ∧ 0 < Player.loan_duration p'
  else Player.loaned_to p' = None ∧ Player.loan_duration p' = 0.
Proof.
  intros Hp. apply (after_calls_invariant loan_consistent).
  - apply perform_loan_consistent.
  - apply Player_init_returns in Hp as (_ & _ & ->). by unfold loan_consistent.
Qed.

Lemma loan_state_stays_consistent_witness :
  let p' := after_calls [LoanTo "Girona" 2; ReduceLoanDuration; LoanTo "Betis" 5;
                         ReduceLoanDuration]
              (constructed "Leo" FORWARD 35 99) in
  if Player.on_loan p'
  then is_Some (Player.loaned_to p') ∧ 0 < Player.loan_duration p'
  else Player.loaned_to p' = None ∧ Player.loan_duration p' = 0.
Proof.
  apply (loan_state_stays_consistent "Leo" FORWARD 35 99). reflexivity.
Defined.


Lemma perform_one_way c p :
  Player.age p ≤ Player.age (snd (perform c p)) ∧
  (Player.retired p = true → Player.retired (snd (perform c p)) = true) ∧
  Player.name (snd (perform c p)) = Player.name p ∧
  (0 ≤ Player.contract_years_left p →
   0 ≤ Player.contract_years_left (snd (perform c p))).
Proof. destruct p, c; run_player; cbn in *; repeat split; (done || lia). Qed.

(** X5: whatever calls are made on a player, the age never goes down, a
    retirement is never undone, the name never changes, and a contract
    term that is not negative stays so: no method lowers [age], clears
    [retired] or assigns [name], [renew_contract] rejects a term below
    one year and [decrement_contract] stops at 0. *)
Theorem age_and_retirement_are_one_way (p : Player.t) (cs : list player_call) :
  Player.age p ≤ Player.age (after_calls cs p) ∧
  (Player.retired p = true → Player.retired (after_calls cs p) = true) ∧
  Player.name (after_calls cs p) = Player.name p ∧
  (0 ≤ Player.contract_years_left p →
   0 ≤ Player.contract_years_left (after_calls cs p)).
Proof.
  revert p. induction cs as [| c cs IH]; intros p; [done |].
  rewrite after_calls_cons.
  destruct (IH (snd (perform c p))) as (Hage & Hretired & Hname & Hterm).
  destruct (perform_one_way c p) as (Hage1 & Hretired1 & Hname1 & Hterm1).
  split; [lia |]. split; [auto |]. split; [congruence | auto].
Qed.

(** ** Player: repeated calls in closed form *)

Lemma after_calls_replicate_S n c p :
  after_calls (replicate (S n) c) p = after_calls (replicate n c) (snd (perform c p)).
Proof. reflexivity. Qed.



(** X7: [n + 1] rests raise the stamina by [20 * (n + 1)], stopping at
    100, and change nothing else; so five rests bring any stamina that
    is not negative back to 100. *)
Theorem rest_repeatedly (p : Player.t) (n : nat) :
  after_calls (replicate (S n) Rest) p
  = Player.set_stamina (Z.min 100 (Player.stamina p + 20 * Z.of_nat (S n))) p ∧
  (0 ≤ Player.stamina p → (5 ≤ S n)%nat →
     Player.stamina (after_calls (replicate (S n) Rest) p) = 100).
Proof.
  assert (∀ n p, after_calls (replicate (S n) Rest) p
    = Player.set_stamina (Z.min 100 (Player.stamina p + 20 * Z.of_nat (S n))) p)
    as Hrest.
  { clear. intros n. induction n as [| n IH]; intros p.
    - destruct p. cbn. f_equal; lia.
    - rewrite after_calls_replicate_S, IH. destruct p.
      unfold Player.set_stamina. cbn -[Z.of_nat]. f_equal; lia. }
  split; [apply Hrest |].
  intros Hs Hn. rewrite Hrest. destruct p. cbn in *. lia.
Qed.

Lemma rest_repeatedly_witness :
  Player.stamina
    (after_calls (replicate 5 Rest)
       (Player.set_stamina 0 (constructed "Leo" FORWARD 35 95))) = 100.
Proof.
  apply (proj2 (rest_repeatedly
                  (Player.set_stamina 0 (constructed "Leo" FORWARD 35 95)) 4)).
  - simpl. lia.
  - lia.
Defined.

#[local] Hint Unfold Player.set_name Player.set_position Player.set_age
  Player.set_overall_rating Player.set_stamina Player.set_injured
  Player.set_is_captain Player.set_goals Player.set_assists
  Player.set_matches_played Player.set_yellow_cards Player.set_red_cards
  Player.set_suspended Player.set_contract_years_left Player.set_morale
  Player.set_retired Player.set_on_loan Player.set_loaned_to
  Player.set_loan_duration : player_methods.









(** ** Team: queries, failures and invariants *)

Lemma list_remove_not_in (x : loc) xs : x ∉ xs → list_remove x xs = xs.
Proof.
  induction xs as [| y ys IH]; intros Hx; [done |]. simpl.
  destruct (decide (x = y)) as [-> | Hne]; [exfalso; apply Hx; by left |].
  rewrite IH; [done |]. intros Hin. apply Hx. by right.
Qed.

Lemma list_remove_app_end (x : loc) xs : x ∉ xs → list_remove x (xs ++ [x]) = xs.
Proof.
  induction xs as [| y ys IH]; intros Hx; simpl.
  - by destruct (decide (x = x)).
  - destruct (decide (x = y)) as [-> | Hne]; [exfalso; apply Hx; by left |].
    rewrite IH; [done |]. intros Hin. apply Hx. by right.
Qed.

Lemma elem_of_list_remove (x y : loc) xs :
  y ∈ list_remove x xs → y ∈ xs.
Proof.
  induction xs as [| z zs IH]; simpl; [done |].
  destruct (decide (x = z)) as [-> | Hne]; intros Hy; [by right |].
  apply elem_of_cons in Hy as [-> | Hy]; [by left | right; by apply IH].
Qed.

Lemma elem_of_list_remove_ne (x y : loc) xs :
  y ≠ x → y ∈ xs → y ∈ list_remove x xs.
Proof.
  intros Hne. induction xs as [| z zs IH]; simpl; [done |].
  intros [<- | Hy]%elem_of_cons.
  - destruct (decide (x = y)); [done | by left].
  - destruct (decide (x = z)); [done | right; by apply IH].
Qed.

Lemma NoDup_list_remove (x : loc) xs :
  NoDup xs → NoDup (list_remove x xs) ∧ x ∉ list_remove x xs.
Proof.
  induction 1 as [| z zs Hz Hzs IH]; simpl; [split; [constructor | by inversion 1] |].
  destruct (decide (x = z)) as [-> | Hne]; [done |].
  destruct IH as [IH1 IH2]. split.
  - constructor; [| done]. intros Hin. by apply Hz, (elem_of_list_remove x).
  - intros [-> | Hin]%elem_of_cons; done.
Qed.

Lemma length_list_remove (x : loc) xs :
  x ∈ xs → S (length (list_remove x xs)) = length xs.
Proof.
  induction xs as [| z zs IH]; simpl; [by inversion 1 |].
  intros Hx. destruct (decide (x = z)) as [-> | Hne]; [done |]. simpl.
  rewrite IH; [done |]. apply elem_of_cons in Hx as [-> | Hx]; done.
Qed.

Section team_calls.
Variable objs : gmap loc Player.t.

(** The comprehensions and the scans read and never assign. *)
Lemma for_fold_reads {S B} (body : B → loc → method S B) ps acc (s : S) :
  (∀ b l s, snd (body b l s) = s) →
  snd (for_fold ps acc body s) = s.
Proof.
  intros Hbody. revert acc. induction ps as [| l ps IH]; intros acc; [done |].
  cbn [for_fold]. unfold bind at 1.
  pose proof (Hbody acc l s) as Hs.
  destruct (body acc l s) as [[b | e] s']; simpl in Hs; subst; [apply IH | done].
Qed.

Lemma player_attr_reads {S A} l attr (f : Player.t → A) (s : S) :
  snd (Team.player_attr objs l attr f s) = s.
Proof. unfold Team.player_attr. by destruct (objs !! l). Qed.

Lemma select_reads {S} attr cond ps (s : S) :
  snd (Team.select objs attr cond ps s) = s.
Proof.
  unfold Team.select. apply for_fold_reads. intros b l s'.
  unfold bind, Team.player_attr. by destruct (objs !! l).
Qed.

Lemma scan_best_reads attr f T : snd (Team.scan_best objs attr f T) = T.
Proof.
  unfold Team.scan_best. unfold bind at 1, get at 1.
  destruct (Team.players T) as [| first others]; [done |].
  unfold bind at 1.
  match goal with |- context [for_fold ?ps ?acc ?body ?s] =>
    pose proof (for_fold_reads body ps acc s) as Hs;
    destruct (for_fold ps acc body s) as [[b | e] s'] end.
  - simpl in *. apply Hs. intros b0 l s0. unfold bind, Team.player_attr.
    destruct (objs !! l); [| done]. by destruct (objs !! b0).
  - simpl in *. apply Hs. intros b0 l s0. unfold bind, Team.player_attr.
    destruct (objs !! l); [| done]. by destruct (objs !! b0).
Qed.

Lemma query_reads {A} (m : method Team.t A) T :
  snd (m T) = T → snd ((m ;; ret tt) T) = T.
Proof. unfold bind, ret. by destruct (m T) as [[a | e] T']. Qed.

End team_calls.



Lemma add_player_returns (objs : gmap loc Player.t) player p T :
  player ∉ Team.players T → objs !! player = Some p → Player.retired p = false →
  Team.add_player objs player T
  = (Returns tt, Team.set_players (Team.players T ++ [player]) T).
Proof.
  intros Hout Hp Hretired. unfold Team.add_player, Team.player_attr, contains.
  run. rewrite bool_decide_eq_false_2 by done. by rewrite Hp, Hretired.
Qed.

Lemma add_player_effect (objs : gmap loc Player.t) player T :
  snd (Team.add_player objs player T) = T ∨
  ((player ∉ Team.players T) ∧
   snd (Team.add_player objs player T)
   = Team.set_players (Team.players T ++ [player]) T).
Proof.
  unfold Team.add_player, Team.player_attr, contains. run.
  case_bool_decide as Hin; [by left |].
  destruct (objs !! player) as [p |]; [| by left].
  destruct (Player.retired p); [by left | by right].
Qed.

Lemma remove_player_effect player T :
  snd (Team.remove_player player T) = T ∨
  snd (Team.remove_player player T)
  = Team.set_players (list_remove player (Team.players T)) T.
Proof.
  unfold Team.remove_player. run.
  destruct (contains player (Team.players T)); [by right | by left].
Qed.

Lemma assign_starting_eleven_effect (objs : gmap loc Player.t) chosen T :
  snd (Team.assign_starting_eleven objs chosen T) = T ∨
  (length chosen = 11%nat ∧
   snd (Team.assign_starting_eleven objs chosen T)
   = Team.set_starting_eleven chosen T).
Proof.
  destruct (decide (length chosen = 11%nat
                    ∧ Forall (λ p, p ∈ Team.players T) chosen))
    as [[Hlen Hin] | Hbad].
  - right. split; [done |]. rewrite Forall_forall in Hin.
    by rewrite (assign_starting_eleven_returns objs chosen T Hlen Hin).
  - left. destruct (assign_starting_eleven_raises objs chosen T) as [e ->]; [| done].
    apply not_and_l in Hbad as [Hlen | Hout]; [by left | right].
    apply not_Forall_Exists, Exists_exists in Hout; [done | apply _].
Qed.


Lemma after_team_calls_cons step history T :
  after_team_calls (step :: history) T
  = after_team_calls history (snd (perform_team (fst step) (snd step) T)).
Proof. reflexivity. Qed.


Lemma perform_team_result (objs : gmap loc Player.t) c T :
  let T' := snd (perform_team objs c T) in
  let score := result_of (objs, c) in
  Team.goals_scored T' = Team.goals_scored T + from_option fst 0 score ∧
  Team.goals_conceded T' = Team.goals_conceded T + from_option snd 0 score ∧
  Team.wins T'
  = Team.wins T + from_option (λ s, if snd s <? fst s then 1 else 0) 0 score ∧
  Team.losses T'
  = Team.losses T + from_option (λ s, if fst s <? snd s then 1 else 0) 0 score ∧
  Team.draws T'
  = Team.draws T + from_option (λ s, if fst s =? snd s then 1 else 0) 0 score.
Proof.
  cbn zeta. unfold result_of. cbn [snd].
  assert (∀ T0, T0 = T ∨ (∃ v, T0 = Team.set_players v T) ∨
                (∃ v, T0 = Team.set_starting_eleven v T) →
    Team.goals_scored T0 = Team.goals_scored T + 0 ∧
    Team.goals_conceded T0 = Team.goals_conceded T + 0 ∧
    Team.wins T0 = Team.wins T + 0 ∧ Team.losses T0 = Team.losses T + 0 ∧
    Team.draws T0 = Team.draws T + 0) as Hframe.
  { intros T0 [-> | [[v ->] | [v ->]]]; simpl; lia. }
  destruct c; cbn [perform_team from_option fst snd].
  - apply Hframe. destruct (add_player_effect objs player T) as [-> | [_ ->]]; eauto.
  - apply Hframe. destruct (remove_player_effect player T) as [-> | ->]; eauto.
  - unfold Team.set_formation. run. case_bool_decide; simpl; lia.
  - apply Hframe.
    destruct (assign_starting_eleven_effect objs players T) as [-> | [_ ->]]; eauto.
  - unfold Team.update_match_result. run. zcases; simpl; lia.
  - apply Hframe. left. apply query_reads.
    unfold Team.get_injured_players, bind, get. apply select_reads.
  - apply Hframe. left. apply query_reads.
    unfold Team.get_players_by_position, bind, get. apply select_reads.
  - apply Hframe. left. apply query_reads, scan_best_reads.
  - destruct (decide (player_out ∈ Team.players T)) as [Hin | Hout];
      [| rewrite swap_players_absent by done; simpl; lia].
    rewrite swap_players_present by done.
    destruct (add_player_effect objs player_in
                (Team.set_players (list_remove player_out (Team.players T)) T))
      as [-> | [_ ->]]; simpl; lia.
  - apply Hframe. left. apply query_reads, scan_best_reads.
  - apply Hframe. left. apply query_reads, scan_best_reads.
  - apply Hframe. left. apply query_reads, scan_best_reads.
  - apply Hframe. left. apply query_reads.
    unfold Team.get_loaned_players, bind, get. apply select_reads.
Qed.

Lemma after_team_calls_results history T :
  let T' := after_team_calls history T in
  let scores := omap result_of history in
  Team.goals_scored T' = Team.goals_scored T + Zsum (fst <$> scores) ∧
  Team.goals_conceded T' = Team.goals_conceded T + Zsum (snd <$> scores) ∧
  Team.wins T'
  = Team.wins T + Z.of_nat (length (filter (λ s, snd s < fst s) scores)) ∧
  Team.losses T'
  = Team.losses T + Z.of_nat (length (filter (λ s, fst s < snd s) scores)) ∧
  Team.draws T'
  = Team.draws T + Z.of_nat (length (filter (λ s, fst s = snd s) scores)).
Proof.
  cbn zeta. revert T. induction history as [| [objs c] history IH]; intros T.
  - simpl. lia.
  - rewrite after_team_calls_cons. cbn [fst snd].
    destruct (IH (snd (perform_team objs c T))) as (H1 & H2 & H3 & H4 & H5).
    destruct (perform_team_result objs c T) as (K1 & K2 & K3 & K4 & K5).
    rewrite H1, H2, H3, H4, H5, K1, K2, K3, K4, K5. clear.
    cbn [omap list_omap]. destruct (result_of (objs, c)) as [[gf ga] |];
      cbn [from_option fst snd]; [| lia].
    rewrite !fmap_cons, !filter_cons. cbn [fst snd Zsum foldr].
    fold (Zsum (fst <$> omap result_of history)).
    fold (Zsum (snd <$> omap result_of history)).
    repeat case_decide; zcases; cbn [length]; lia.
Qed.

(** X12: starting from a new team, after any history of [Team] calls,
    the record adds up: [goals_scored] and [goals_conceded] are the sums
    over the [update_match_result] calls made, [wins], [losses] and
    [draws] count the calls with more, fewer and as many goals for as
    against, and so [wins + draws + losses] is the number of results
    entered.  No other method touches the five counters. *)
Theorem Team_record_adds_up (name : string)
    (history : list (gmap loc Player.t * team_call)) :
  let T := after_team_calls history (Team.init name) in
  let scores := omap result_of history in
  Team.goals_scored T = Zsum (fst <$> scores) ∧
  Team.goals_conceded T = Zsum (snd <$> scores) ∧
  Team.wins T = Z.of_nat (length (filter (λ s, snd s < fst s) scores)) ∧
  Team.losses T = Z.of_nat (length (filter (λ s, fst s < snd s) scores)) ∧
  Team.draws T = Z.of_nat (length (filter (λ s, fst s = snd s) scores)) ∧
  Team.wins T + Team.draws T + Team.losses T = Z.of_nat (length scores).
Proof.
  cbn zeta.
  destruct (after_team_calls_results history (Team.init name))
    as (H1 & H2 & H3 & H4 & H5).
  rewrite H1, H2, H3, H4, H5. simpl. repeat split; try lia.
  generalize (omap result_of history). clear. intros scores.
  induction scores as [| [gf ga] scores IH]; [done |].
  rewrite !filter_cons. cbn [fst snd length].
  repeat case_decide; cbn [length]; lia.
Qed.

(** X13: adding a player who is not on the roster and not retired, and
    then removing the same player, both return and leave the team
    exactly as it was before. *)
Theorem add_then_remove_player (objs : gmap loc Player.t) (player : loc)
    (p : Player.t) (T : Team.t) :
  player ∉ Team.players T → objs !! player = Some p → Player.retired p = false →
  (Team.add_player objs player ;; Team.remove_player player) T = (Returns tt, T).
Proof.
  intros Hout Hp Hretired. unfold bind at 1.
  rewrite (add_player_returns objs player p T) by done.
  rewrite remove_player_present by (simpl; apply elem_of_app; right; by left).
  simpl. rewrite list_remove_app_end by done. by destruct T.
Qed.

Lemma add_then_remove_player_witness :
  (Team.add_player trio_objs 3%nat ;; Team.remove_player 3%nat)
    (Team.set_players [1; 2]%nat trio)
  = (Returns tt, Team.set_players [1; 2]%nat trio).
Proof.
  apply (add_then_remove_player trio_objs 3%nat
           (Player.set_goals 4 (constructed "C" MIDFIELDER 27 90))).
  - vm_compute. intros Hin. apply list_elem_of_In in Hin. simpl in Hin.
    destruct Hin as [Hin | [Hin | []]]; discriminate.
  - reflexivity.
  - reflexivity.
Defined.





(** X15: [swap_players(player_out, player_in)] returns when
    [player_out] is on the roster and [player_in] is a player who is not
    retired and not among the others; the roster then is the old one
    without [player_out] and with [player_in] at the end (not at the
    place [player_out] had), so its length is unchanged; nothing else
    changes. *)
Theorem swap_players_returns (objs : gmap loc Player.t)
    (player_out player_in : loc) (p : Player.t) (T : Team.t) :
  player_out ∈ Team.players T →
  player_in ∉ list_remove player_out (Team.players T) →
  objs !! player_in = Some p → Player.retired p = false →
  Team.swap_players objs player_out player_in T
  = (Returns tt,
     Team.set_players (list_remove player_out (Team.players T) ++ [player_in]) T) ∧
  length (list_remove player_out (Team.players T) ++ [player_in])
  = length (Team.players T).
Proof.
  intros Hin Hout Hp Hretired. split.
  - rewrite swap_players_present by done.
    rewrite (add_player_returns objs player_in p) by done. by destruct T.
  - rewrite length_app. simpl.
    pose proof (length_list_remove player_out (Team.players T) Hin). lia.
Qed.

Lemma swap_players_returns_witness :
  Team.swap_players trio_objs 1%nat 3%nat (Team.set_players [1; 2]%nat trio)
  = (Returns tt,
     Team.set_players
       (list_remove 1%nat (Team.players (Team.set_players [1; 2]%nat trio))
        ++ [3%nat]) (Team.set_players [1; 2]%nat trio)) ∧
  length (list_remove 1%nat (Team.players (Team.set_players [1; 2]%nat trio))
          ++ [3%nat])
  = length (Team.players (Team.set_players [1; 2]%nat trio)).
Proof.
  apply (swap_players_returns trio_objs 1%nat 3%nat
           (Player.set_goals 4 (constructed "C" MIDFIELDER 27 90))).
  - apply list_elem_of_In. simpl. tauto.
  - vm_compute. intros Hin. apply list_elem_of_In in Hin. simpl in Hin.
    destruct Hin as [Hin | []]; discriminate.
  - reflexivity.
  - reflexivity.
Defined.

Lemma select_filter (objs : gmap loc Player.t) {S} (attr : string)
    (cond : Player.t → bool) (ps acc : list loc) (s : S) :
  (∀ l, l ∈ ps → is_Some (objs !! l)) →
  for_fold ps acc (λ acc p,
    keep <- Team.player_attr objs p attr cond ;;
    ret (if keep then acc ++ [p] else acc)) s
  = (Returns (acc ++ List.filter (holds objs cond) ps), s).
Proof.
  revert acc. induction ps as [| l ps IH]; intros acc Hobjs.
  - simpl. by rewrite app_nil_r.
  - destruct (Hobjs l) as [p Hp]; [by left |].
    cbn [for_fold List.filter]. unfold bind at 1. unfold bind at 1.
    rewrite (player_attr_Some objs l attr cond p) by done. unfold ret at 1.
    unfold holds at 1. rewrite Hp. cbn [from_option].
    rewrite IH by (intros l' Hl'; apply Hobjs; by right).
    destruct (cond p); [by rewrite <- app_assoc | done].
Qed.

(** X16: on a roster of players, [get_injured_players],
    [get_players_by_position] and [get_loaned_players] return, in roster
    order, exactly the roster members that are injured, that play the
    given position, and that are on loan; they do not change the team. *)
Theorem roster_filters (objs : gmap loc Player.t) (T : Team.t)
    (position : Position) :
  (∀ l, l ∈ Team.players T → is_Some (objs !! l)) →
  Team.get_injured_players objs T
  = (Returns (List.filter (holds objs Player.injured) (Team.players T)), T) ∧
  Team.get_players_by_position objs position T
  = (Returns (List.filter
                (holds objs (λ p, bool_decide (Player.position p = position)))
                (Team.players T)), T) ∧
  Team.get_loaned_players objs T
  = (Returns (List.filter (holds objs Player.on_loan) (Team.players T)), T).
Proof.
  intros Hobjs.
  unfold Team.get_injured_players, Team.get_players_by_position,
    Team.get_loaned_players, Team.select.
  repeat split; unfold bind at 1, get at 1; by rewrite select_filter.
Qed.

Lemma roster_filters_witness :
  Team.get_injured_players trio_objs trio
  = (Returns (List.filter (holds trio_objs Player.injured) (Team.players trio)),
     trio) ∧
  Team.get_players_by_position trio_objs FORWARD trio
  = (Returns (List.filter
                (holds trio_objs (λ p, bool_decide (Player.position p = FORWARD)))
                (Team.players trio)), trio) ∧
  Team.get_loaned_players trio_objs trio
  = (Returns (List.filter (holds trio_objs Player.on_loan) (Team.players trio)),
     trio).
Proof.
  apply (roster_filters trio_objs trio FORWARD).
  intros l Hl. apply list_elem_of_In in Hl. simpl in Hl.
  destruct Hl as [<- | [<- | [<- | []]]]; vm_compute; eauto.
Defined.

(** ** League: lookups by name and changes of the table *)

Section league_lookups.
Variable objs : gmap loc Team.t.

Lemma first_named_reads {St} name ts (s : St) :
  snd (League.first_named objs name ts s) = s.
Proof.
  induction ts as [| t ts IH]; [done |]. cbn [League.first_named].
  unfold bind, League.team_attr. destruct (objs !! t) as [T |]; [| done].
  unfold ret at 1. by case_bool_decide.
Qed.

Lemma any_named_first_named {St} name ts (s : St) :
  League.any_named objs name ts s
  = match League.first_named objs name ts s with
    | (Returns found, s') => (Returns (bool_decide (is_Some found)), s')
    | (Raises e, s') => (Raises e, s')
    end.
Proof.
  induction ts as [| t ts IH]; [done |].
  cbn [League.any_named League.first_named].
  unfold bind, League.team_attr. destruct (objs !! t) as [T |]; [| done].
  unfold ret at 1 3. case_bool_decide; [done | apply IH].
Qed.

Lemma first_named_spec {St} name ts (s : St) :
  (∀ t, t ∈ ts → is_Some (objs !! t)) →
  ∃ found,
    League.first_named objs name ts s = (Returns found, s) ∧
    match found with
    | Some t =>
        ∃ (i : nat) T,
          ts !! i = Some t ∧ objs !! t = Some T ∧ Team.name T = name ∧
          ∀ (j : nat) t' T', (j < i)%nat → ts !! j = Some t' →
                             objs !! t' = Some T' → Team.name T' ≠ name
    | None => ∀ t T, t ∈ ts → objs !! t = Some T → Team.name T ≠ name
    end.
Proof.
  induction ts as [| t ts IH]; intros Hobjs.
  - exists None. split; [done |]. intros t T Ht. by inversion Ht.
  - destruct (Hobjs t) as [T HT]; [by left |].
    cbn [League.first_named]. unfold bind at 1.
    rewrite (team_attr_Some objs t _ _ T) by done.
    case_bool_decide as Hname.
    + exists (Some t). split; [done |]. exists 0%nat, T.
      repeat split; try done. intros j t' T' Hj. lia.
    + destruct IH as (found & -> & Hfound).
      { intros t' Ht'. apply Hobjs. by right. }
      exists found. split; [done |]. destruct found as [t0 |].
      * destruct Hfound as (i & T0 & Hi & HT0 & Hname0 & Hbefore).
        exists (S i), T0. repeat split; try done.
        intros [| j] t' T' Hj Hj' HT'; simplify_eq/=; [done |].
        eapply (Hbefore j); [lia | done | done].
      * intros t' T' [-> | Ht']%elem_of_cons HT'; [by simplify_eq |].
        by eapply Hfound.
Qed.
End league_lookups.

(** X17: in a league whose members are teams, [get_team_by_name]
    returns the first team of the table, in insertion order, whose name
    is the one asked for, every earlier team having another name, and
    returns [None] exactly when no team of the table has that name.  The
    league is not changed. *)
Theorem get_team_by_name_first_match (objs : gmap loc Team.t) (L : League.t)
    (name : string) :
  (∀ t, t ∈ League.teams L → is_Some (objs !! t)) →
  ∃ found,
    League.get_team_by_name objs name L = (Returns found, L) ∧
    match found with
    | Some t =>
        ∃ (i : nat) T,
          League.teams L !! i = Some t ∧ objs !! t = Some T ∧
          Team.name T = name ∧
          ∀ (j : nat) t' T', (j < i)%nat → League.teams L !! j = Some t' →
                             objs !! t' = Some T' → Team.name T' ≠ name
    | None =>
        ∀ t T, t ∈ League.teams L → objs !! t = Some T → Team.name T ≠ name
    end.
Proof.
  intros Hobjs. unfold League.get_team_by_name, bind, get.
  apply first_named_spec, Hobjs.
Qed.

Lemma get_team_by_name_first_match_witness :
  ∃ found,
    League.get_team_by_name table_objs "Team B" table = (Returns found, table) ∧
    match found with
    | Some t =>
        ∃ (i : nat) T,
          League.teams table !! i = Some t ∧ table_objs !! t = Some T ∧
          Team.name T = "Team B" ∧
          ∀ (j : nat) t' T', (j < i)%nat → League.teams table !! j = Some t' →
                             table_objs !! t' = Some T' → Team.name T' ≠ "Team B"
    | None =>
        ∀ t T, t ∈ League.teams table → table_objs !! t = Some T →
               Team.name T ≠ "Team B"
    end.
Proof.
  apply (get_team_by_name_first_match table_objs table "Team B").
  intros l Hl. apply list_elem_of_In in Hl. simpl in Hl.
  destruct Hl as [<- | [<- | [<- | []]]]; vm_compute; eauto.
Defined.

(** X18: [has_team] and [get_team_by_name] agree on every league and
    every name: [has_team] returns [True] exactly when
    [get_team_by_name] returns a team, returns [False] exactly when it
    returns [None], raises exactly when it raises, and neither changes
    the league. *)
Theorem has_team_iff_get_team_by_name (objs : gmap loc Team.t) (L : League.t)
    (name : string) :
  League.has_team objs name L
  = (match fst (League.get_team_by_name objs name L) with
     | Returns found => Returns (bool_decide (is_Some found))
     | Raises e => Raises e
     end, L) ∧
  snd (League.get_team_by_name objs name L) = L.
Proof.
  unfold League.has_team, League.get_team_by_name, bind, get.
  rewrite any_named_first_named.
  pose proof (first_named_reads objs name (League.teams L) L) as Hs.
  destruct (League.first_named objs name (League.teams L) L) as [[found | e] L'];
    simpl in *; by subst.
Qed.

(** X19: [get_team_stats] looks the team up as [get_team_by_name] does.
    When that finds no team it raises [ValueError]; when the team found
    was never given points it raises [AttributeError]; otherwise it
    returns a dictionary of exactly six entries holding the points and
    the wins, draws, losses, goals scored and goals conceded of that
    team.  The league is not changed. *)
Theorem get_team_stats_follows_lookup (objs : gmap loc Team.t) (L : League.t)
    (name : string) (found : option loc) :
  League.get_team_by_name objs name L = (Returns found, L) →
  match found with
  | None =>
      League.get_team_stats objs name L
      = (Raises (ValueError "Team not found."), L)
  | Some t =>
      ∃ T, objs !! t = Some T ∧
        match Team.attrs T !! "points" with
        | None =>
            League.get_team_stats objs name L
            = (Raises (AttributeError "points"), L)
        | Some points =>
            ∃ stats : gmap string Z,
              League.get_team_stats objs name L = (Returns stats, L) ∧
              stats !! "points" = Some points ∧
              stats !! "wins" = Some (Team.wins T) ∧
              stats !! "draws" = Some (Team.draws T) ∧
              stats !! "losses" = Some (Team.losses T) ∧
              stats !! "goals_scored" = Some (Team.goals_scored T) ∧
              stats !! "goals_conceded" = Some (Team.goals_conceded T) ∧
              size stats = 6%nat
        end
  end.
Proof.
  intros Hfound.
  assert (League.get_team_stats objs name L
          = match found with
            | Some team =>
                (points <- League.team_extra_attr objs team "points" ;;
                 T <- League.team_attr objs team "wins" id ;;
                 ret (<["points" := points]> (<["wins" := Team.wins T]>
                     (<["draws" := Team.draws T]> (<["losses" := Team.losses T]>
                     (<["goals_scored" := Team.goals_scored T]>
                     (<["goals_conceded" := Team.goals_conceded T]> ∅))))))) L
            | None => (Raises (ValueError "Team not found."), L)
            end) as ->.
  { unfold League.get_team_stats. unfold bind at 1. rewrite Hfound.
    by destruct found. }
  destruct found as [t |]; [| done].
  assert (is_Some (objs !! t)) as [T HT].
  { revert Hfound. unfold League.get_team_by_name, bind, get.
    generalize (League.teams L). intros ts. induction ts as [| t' ts IH]; [done |].
    cbn [League.first_named]. unfold bind, League.team_attr.
    destruct (objs !! t') as [T' |] eqn:Ht'; [| done]. unfold ret at 1.
    case_bool_decide; [| exact IH]. intros [= <-]. by rewrite Ht'. }
  exists T. split; [done |].
  unfold bind, League.team_extra_attr, League.team_attr. rewrite HT.
  destruct (Team.attrs T !! "points") as [points |]; [| done].
  eexists. split; [reflexivity |].
  repeat split; by simplify_map_eq.
Qed.

Lemma get_team_stats_follows_lookup_witness :
  ∃ T, table_objs !! 11%nat = Some T ∧
    match Team.attrs T !! "points" with
    | None =>
        League.get_team_stats table_objs "Team B" table
        = (Raises (AttributeError "points"), table)
    | Some points =>
        ∃ stats : gmap string Z,
          League.get_team_stats table_objs "Team B" table = (Returns stats, table) ∧
          stats !! "points" = Some points ∧
          stats !! "wins" = Some (Team.wins T) ∧
          stats !! "draws" = Some (Team.draws T) ∧
          stats !! "losses" = Some (Team.losses T) ∧
          stats !! "goals_scored" = Some (Team.goals_scored T) ∧
          stats !! "goals_conceded" = Some (Team.goals_conceded T) ∧
          size stats = 6%nat
    end.
Proof.
  apply (get_team_stats_follows_lookup table_objs table "Team B" (Some 11%nat)).
  reflexivity.
Defined.




Lemma add_team_returns (objs : gmap loc Team.t) team L :
  is_Some (objs !! team) → team ∉ League.teams L →
  League.add_team objs team L
  = (Returns tt, League.set_teams (League.teams L ++ [team]) L).
Proof.
  intros Hteam Hout. unfold League.add_team, contains. run.
  rewrite bool_decide_eq_true_2 by done. cbn [negb].
  by rewrite bool_decide_eq_false_2.
Qed.

Lemma remove_team_present team L :
  team ∈ League.teams L →
  League.remove_team team L
  = (Returns tt, League.set_teams (list_remove team (League.teams L)) L).
Proof.
  intros Hin. unfold League.remove_team, contains. run.
  by rewrite bool_decide_eq_true_2.
Qed.

(** X21: adding a team object that is not in the league and then
    removing it both return and leave the league exactly as it was;
    [add_team] and [remove_team] each keep a table without duplicates
    free of duplicates, whether they return or raise. *)
Theorem add_then_remove_team (objs : gmap loc Team.t) (team : loc) (L : League.t) :
  (is_Some (objs !! team) → team ∉ League.teams L →
     (League.add_team objs team ;; League.remove_team team) L = (Returns tt, L)) ∧
  (NoDup (League.teams L) →
     NoDup (League.teams (snd (League.add_team objs team L))) ∧
     NoDup (League.teams (snd (League.remove_team team L)))).
Proof.
  split.
  - intros Hteam Hout. unfold bind at 1. rewrite add_team_returns by done.
    rewrite remove_team_present by (simpl; apply elem_of_app; right; by left).
    simpl. rewrite list_remove_app_end by done. by destruct L.
  - intros Hnd. split.
    + unfold League.add_team, contains. run.
      case_bool_decide; [| done]. cbn [negb].
      case_bool_decide as Hin; [done |]. simpl.
      apply NoDup_app. split; [done |]. split; [| apply NoDup_singleton].
      intros x Hx ->%list_elem_of_singleton. done.
    + unfold League.remove_team, contains. run.
      case_bool_decide; [| done]. simpl. by apply NoDup_list_remove.
Qed.

Lemma add_then_remove_team_witness :
  (League.add_team table_objs 12%nat ;; League.remove_team 12%nat)
    (League.set_teams [10; 11]%nat table)
  = (Returns tt, League.set_teams [10; 11]%nat table).
Proof.
  apply (proj1 (add_then_remove_team table_objs 12%nat
                  (League.set_teams [10; 11]%nat table))).
  - vm_compute. eauto.
  - vm_compute. intros Hin. apply list_elem_of_In in Hin. simpl in Hin.
    destruct Hin as [Hin | [Hin | []]]; discriminate.
Defined.

Section missing_points.
Variable objs : gmap loc Team.t.

Lemma team_extra_attr_missing {St} l T (s : St) :
  objs !! l = Some T → Team.attrs T !! "points" = None →
  League.team_extra_attr objs l "points" s = (Raises (AttributeError "points"), s).
Proof. intros Hl Hp. unfold League.team_extra_attr. by rewrite Hl, Hp. Qed.

(** The loops of [get_top_team] and [get_bottom_team] read the points of
    every team they meet; [keep] stands for the comparison each makes. *)
Lemma ranking_loop_raises (L : League.t) (body : loc → loc → method League.t loc) :
  (∀ top team Ttop Tteam ptop pteam,
     objs !! top = Some Ttop → objs !! team = Some Tteam →
     Team.attrs Ttop !! "points" = Some ptop →
     Team.attrs Tteam !! "points" = Some pteam →
     ∃ next, body top team L = (Returns next, L) ∧ (next = top ∨ next = team)) →
  (∀ top team Ttop Tteam,
     objs !! top = Some Ttop → objs !! team = Some Tteam →
     Team.attrs Ttop !! "points" = None ∨ Team.attrs Tteam !! "points" = None →
     body top team L = (Raises (AttributeError "points"), L)) →
  ∀ others first,
    others ≠ [] →
    (∀ l, l ∈ first :: others → is_Some (objs !! l)) →
    (∃ l T, l ∈ first :: others ∧ objs !! l = Some T ∧
            Team.attrs T !! "points" = None) →
    for_fold others first body L = (Raises (AttributeError "points"), L).
Proof.
  intros Hgood Hbad others.
  induction others as [| x rest IH]; intros first Hne Hobjs (l & T & Hl & HT & Hp);
    [done |].
  destruct (Hobjs first) as [Tf Hf]; [by left |].
  destruct (Hobjs x) as [Tx Hx]; [right; by left |].
  cbn [for_fold]. unfold bind at 1.
  destruct (Team.attrs Tf !! "points") as [pf |] eqn:Hpf;
    [| by rewrite (Hbad first x Tf Tx) by eauto].
  destruct (Team.attrs Tx !! "points") as [px |] eqn:Hpx;
    [| by rewrite (Hbad first x Tf Tx) by eauto].
  destruct (Hgood first x Tf Tx pf px) as (next & -> & Hnext); try done.
  assert (l ∈ rest) as Hrest.
  { apply elem_of_cons in Hl as [-> | Hl]; [congruence |].
    apply elem_of_cons in Hl as [-> | Hl]; [congruence | done]. }
  apply IH.
  - intros ->. by inversion Hrest.
  - intros l' [-> | Hl']%elem_of_cons.
    + destruct Hnext as [-> | ->]; eauto.
    + apply Hobjs. right. by right.
  - exists l, T. split; [by right | done].
Qed.
End missing_points.

(** X22: the ranking queries read [points] only when they compare.  On
    a league of one member they return that member whatever it is; on a
    league of two or more teams of which one was never given points they
    raise [AttributeError], leaving the league unchanged. *)
Theorem ranking_without_points (objs : gmap loc Team.t) (L : League.t) :
  (∀ only, League.teams L = [only] →
     League.get_top_team objs L = (Returns (Some only), L) ∧
     League.get_bottom_team objs L = (Returns (Some only), L)) ∧
  ((2 ≤ length (League.teams L))%nat →
   (∀ l, l ∈ League.teams L → is_Some (objs !! l)) →
   (∃ l T, l ∈ League.teams L ∧ objs !! l = Some T ∧
           Team.attrs T !! "points" = None) →
     League.get_top_team objs L = (Raises (AttributeError "points"), L) ∧
     League.get_bottom_team objs L = (Raises (AttributeError "points"), L)).
Proof.
  split.
  - intros only Honly. unfold League.get_top_team, League.get_bottom_team.
    run. by rewrite Honly.
  - intros Hlen Hobjs Hmissing.
    unfold League.get_top_team, League.get_bottom_team.
    destruct (League.teams L) as [| first others] eqn:HL; [simpl in Hlen; lia |].
    assert (others ≠ []) as Hne by (intros ->; simpl in Hlen; lia).
    split.
    + unfold bind at 1, get at 1. rewrite HL. unfold bind at 1.
      rewrite (ranking_loop_raises objs L); try done.
      * intros top team Ttop Tteam ptop pteam Htop Hteam Hptop Hpteam.
        unfold bind at 1.
        rewrite (team_extra_attr_Some objs team Tteam pteam) by done.
        unfold bind at 1.
        rewrite (team_extra_attr_Some objs top Ttop ptop) by done.
        destruct (pteam >? ptop); [eexists; split; [reflexivity | by right] |].
        destruct (pteam =? ptop); [| eexists; split; [reflexivity | by left]].
        unfold bind at 1. rewrite (team_attr_Some objs top _ _ Ttop) by done.
        unfold bind at 1. rewrite (team_attr_Some objs team _ _ Tteam) by done.
        unfold ret. eexists. split; [reflexivity |].
        destruct (_ >? _); [by right | by left].
      * intros top team Ttop Tteam Htop Hteam Hnone. unfold bind at 1.
        destruct (Team.attrs Tteam !! "points") as [pteam |] eqn:Hpteam;
          [| by rewrite (team_extra_attr_missing objs team Tteam)].
        rewrite (team_extra_attr_Some objs team Tteam pteam) by done.
        unfold bind at 1. destruct Hnone as [Hnone | Hnone]; [| congruence].
        by rewrite (team_extra_attr_missing objs top Ttop).
    + unfold bind at 1, get at 1. rewrite HL. unfold bind at 1.
      rewrite (ranking_loop_raises objs L); try done.
      * intros top team Ttop Tteam ptop pteam Htop Hteam Hptop Hpteam.
        unfold bind at 1.
        rewrite (team_extra_attr_Some objs team Tteam pteam) by done.
        unfold bind at 1.
        rewrite (team_extra_attr_Some objs top Ttop ptop) by done.
        destruct (pteam <? ptop); [eexists; split; [reflexivity | by right] |].
        destruct (pteam =? ptop); [| eexists; split; [reflexivity | by left]].
        unfold bind at 1. rewrite (team_attr_Some objs top _ _ Ttop) by done.
        unfold bind at 1. rewrite (team_attr_Some objs team _ _ Tteam) by done.
        unfold ret. eexists. split; [reflexivity |].
        destruct (_ <? _); [by right | by left].
      * intros top team Ttop Tteam Htop Hteam Hnone. unfold bind at 1.
        destruct (Team.attrs Tteam !! "points") as [pteam |] eqn:Hpteam;
          [| by rewrite (team_extra_attr_missing objs team Tteam)].
        rewrite (team_extra_attr_Some objs team Tteam pteam) by done.
        unfold bind at 1. destruct Hnone as [Hnone | Hnone]; [| congruence].
        by rewrite (team_extra_attr_missing objs top Ttop).
Qed.

Lemma ranking_without_points_witness :
  League.get_top_team unranked_objs table = (Raises (AttributeError "points"), table) ∧
  League.get_bottom_team unranked_objs table
  = (Raises (AttributeError "points"), table).
Proof.
  apply (proj2 (ranking_without_points unranked_objs table)).
  - simpl. lia.
  - intros l Hl. apply list_elem_of_In in Hl. simpl in Hl.
    destruct Hl as [<- | [<- | [<- | []]]]; vm_compute; eauto.
  - exists 12%nat, (Team.init "Team C"). split; [| split; reflexivity].
    apply list_elem_of_In. simpl. tauto.
Defined.

(** ** Manager: transfers *)

Section transfers.
Import Manager.

Lemma manager_team_extra_attr_Some l attr T v (s : state) :
  team_objs (snd s) !! l = Some T → Team.attrs T !! attr = Some v →
  team_extra_attr l attr s = (Returns v, s).
Proof.
  intros Hl Hv. unfold team_extra_attr, get_world. run. by rewrite Hl, Hv.
Qed.

Lemma call_team_run {A} l attr (m : gmap loc Player.t → method Team.t A) T
    (s : state) :
  team_objs (snd s) !! l = Some T →
  call_team l attr m s
  = (fst (m (player_objs (snd s)) T),
     (fst s, set_team_objs (<[l := snd (m (player_objs (snd s)) T)]>
                              (team_objs (snd s))) (snd s))).
Proof.
  intros Hl. unfold call_team. rewrite Hl.
  by destruct (m (player_objs (snd s)) T).
Qed.


Lemma buy_player_checks (m : Manager.t) (w : world) T max_players player price :
  team_objs w !! team m = Some T →
  Team.attrs T !! "max_players" = Some max_players →
  buy_player player price (m, w)
  = if contains player (Team.players T) then
      (Raises (ValueError "Player already in team."), (m, w))
    else if Z.of_nat (length (Team.players T)) >=? max_players then
      (Raises (ValueError "Team has reached maximum size."), (m, w))
    else if price >? budget m then
      (Raises (ValueError "Insufficient budget to buy player."), (m, w))
    else
      match fst (Team.add_player (player_objs w) player T) with
      | Returns _ =>
          (Returns tt,
           (set_budget (budget m - price) m,
            set_team_objs
              (<[team m := snd (Team.add_player (player_objs w) player T)]>
                 (team_objs w)) w))
      | Raises e =>
          (Raises e,
           (m, set_team_objs
                 (<[team m := snd (Team.add_player (player_objs w) player T)]>
                    (team_objs w)) w))
      end.
Proof.
  intros HT Hmax. unfold buy_player.
  unfold bind at 1, get_self at 1. cbn [fst snd].
  unfold bind at 1. rewrite (manager_team_attr_Some _ _ _ T) by done.
  destruct (contains player (Team.players T)); [done |].
  unfold bind at 1. rewrite (manager_team_attr_Some _ _ _ T) by done.
  unfold bind at 1.
  rewrite (manager_team_extra_attr_Some _ _ T max_players) by done.
  destruct (_ >=? _); [done |]. destruct (_ >? _); [done |].
  unfold bind at 1. rewrite (call_team_run _ _ _ T) by done. cbn [fst snd].
  by destruct (Team.add_player (player_objs w) player T) as [[[] | e] T'].
Qed.
End transfers.



(** X24: when [buy_player] can return, buying a player and selling the
    same player at the same price both return and bring the manager's
    budget, the roster and everything else back to what they were. *)
Theorem buy_then_sell_player (m : Manager.t) (w : Manager.world) (T : Team.t)
    (max_players : Z) (player : loc) (p : Player.t) (price : Z) :
  Manager.team_objs w !! Manager.team m = Some T →
  Team.attrs T !! "max_players" = Some max_players →
  player ∉ Team.players T →
  Z.of_nat (length (Team.players T)) < max_players →
  price ≤ Manager.budget m →
  Manager.player_objs w !! player = Some p → Player.retired p = false →
  (Manager.buy_player player price ;; Manager.sell_player player price) (m, w)
  = (Returns tt, (m, w)).
Proof.
  intros HT Hmax Hout Hlen Hprice Hp Hretired. unfold bind at 1.
  rewrite (buy_player_checks m w T max_players) by done. unfold contains.
  rewrite bool_decide_eq_false_2 by done.
  destruct (Z.geb_spec (Z.of_nat (length (Team.players T))) max_players); [lia |].
  destruct (Z.gtb_spec price (Manager.budget m)); [lia |].
  rewrite (add_player_returns _ player p T) by done. cbn [fst snd].
  set (T1 := Team.set_players (Team.players T ++ [player]) T).
  unfold Manager.sell_player.
  unfold bind at 1, Manager.get_self at 1. cbn [fst snd].
  unfold bind at 1. rewrite (manager_team_attr_Some _ _ _ T1)
    by (destruct w; apply lookup_insert_eq).
  unfold contains.
  rewrite bool_decide_eq_true_2 by (apply elem_of_app; right; by left).
  cbn [negb]. unfold bind at 1.
  rewrite (call_team_run _ _ _ T1) by (destruct w; apply lookup_insert_eq).
  rewrite remove_player_present by (apply elem_of_app; right; by left).
  cbn [fst snd]. unfold Manager.modify_self. cbn [fst snd].
  f_equal. f_equal.
  - destruct m. unfold Manager.set_budget. simpl. f_equal. lia.
  - destruct w. simpl in *. f_equal. rewrite insert_insert_eq.
    subst T1. simpl. rewrite list_remove_app_end by done.
    rewrite insert_id; [done |]. rewrite HT. by destruct T.
Qed.

Lemma buy_then_sell_player_witness :
  (Manager.buy_player 1%nat 30 ;; Manager.sell_player 1%nat 30)
    (shop_manager, shop_world)
  = (Returns tt, (shop_manager, shop_world)).
Proof.
  apply (buy_then_sell_player shop_manager shop_world shop_team 20 1%nat
           (constructed "New" FORWARD 24 88) 30).
  - reflexivity.
  - reflexivity.
  - vm_compute. intros Hin. inversion Hin.
  - simpl. lia.
  - simpl. lia.
  - reflexivity.
  - reflexivity.
Defined.

(** ** Manager: training, resting and the bench *)

Section squad_loops.
Import Manager.

Lemma call_player_run {A} l attr (m : method Player.t A) p (s : state) :
  player_objs (snd s) !! l = Some p →
  call_player l attr m s
  = (fst (m p),
     (fst s, set_player_objs (<[l := snd (m p)]> (player_objs (snd s))) (snd s))).
Proof. intros Hl. unfold call_player. rewrite Hl. by destruct (m p). Qed.

Lemma manager_player_attr_Some {A} l attr (f : Player.t → A) p (s : state) :
  player_objs (snd s) !! l = Some p →
  player_attr l attr f s = (Returns (f p), s).
Proof. intros Hl. unfold player_attr, get_world. run. by rewrite Hl. Qed.

(** A loop whose body replaces the player at each roster member by [f]
    of it. *)
Lemma for_each_player (f : Player.t → Player.t) (body : loc → method state unit) :
  (∀ l p (s : state), player_objs (snd s) !! l = Some p →
     body l s
     = (Returns tt,
        (fst s, set_player_objs (<[l := f p]> (player_objs (snd s))) (snd s)))) →
  ∀ roster (s : state),
    NoDup roster →
    (∀ l, l ∈ roster → is_Some (player_objs (snd s) !! l)) →
    ∃ objs',
      for_each roster body s = (Returns tt, (fst s, set_player_objs objs' (snd s))) ∧
      (∀ l p, l ∈ roster → player_objs (snd s) !! l = Some p →
              objs' !! l = Some (f p)) ∧
      (∀ l, l ∉ roster → objs' !! l = player_objs (snd s) !! l).
Proof.
  intros Hbody roster. induction roster as [| l roster IH]; intros s Hnd Hobjs.
  - exists (player_objs (snd s)). split; [| split; [by inversion 1 | done]].
    destruct s as [m []]. done.
  - apply NoDup_cons in Hnd as [Hl Hnd].
    destruct (Hobjs l) as [p Hp]; [by left |].
    cbn [for_each]. unfold bind at 1. rewrite (Hbody l p s Hp).
    set (s1 := (fst s, _)).
    destruct (IH s1 Hnd) as (objs' & Hrun & Hin & Hout).
    { intros l' Hl'. subst s1. destruct s as [m []]. simpl in *.
      rewrite lookup_insert_ne by (intros ->; done).
      apply Hobjs. by right. }
    exists objs'. split; [| split].
    + rewrite Hrun. subst s1. by destruct s as [m []].
    + intros l' p' [-> | Hl']%elem_of_cons Hp'.
      * rewrite Hout by done. subst s1. destruct s as [m []]. simpl in *.
        rewrite lookup_insert_eq. congruence.
      * apply Hin; [done |]. subst s1. destruct s as [m []]. simpl in *.
        rewrite lookup_insert_ne by (intros ->; done). done.
    + intros l' Hl'. rewrite Hout by (intros Hin'; apply Hl'; by right).
      subst s1. destruct s as [m []]. simpl in *.
      rewrite lookup_insert_ne; [done |]. intros ->. apply Hl'. by left.
Qed.

Lemma train_injured p : Player.injured p = true → snd (Player.train p) = p.
Proof. destruct p. simpl. intros ->. reflexivity. Qed.

Lemma train_returns p : fst (Player.train p) = Returns tt.
Proof. destruct p. unfold Player.train. run. cbn. by destruct injured. Qed.
End squad_loops.

(** X25: for a manager whose team has a roster of players without
    duplicates, [train_team] and [rest_team] return; afterwards every
    roster member is what one [train] call, respectively one [rest]
    call, makes of it (an injured player is not trained), and every
    other player, the team, the files and the manager are untouched. *)
Theorem train_team_and_rest_team (m : Manager.t) (w : Manager.world) (T : Team.t) :
  Manager.team_objs w !! Manager.team m = Some T →
  NoDup (Team.players T) →
  (∀ l, l ∈ Team.players T → is_Some (Manager.player_objs w !! l)) →
  (∃ objs',
     Manager.train_team (m, w)
     = (Returns tt, (m, Manager.set_player_objs objs' w)) ∧
     (∀ l p, l ∈ Team.players T → Manager.player_objs w !! l = Some p →
             objs' !! l = Some (snd (Player.train p))) ∧
     (∀ l, l ∉ Team.players T → objs' !! l = Manager.player_objs w !! l)) ∧
  (∃ objs',
     Manager.rest_team (m, w)
     = (Returns tt, (m, Manager.set_player_objs objs' w)) ∧
     (∀ l p, l ∈ Team.players T → Manager.player_objs w !! l = Some p →
             objs' !! l = Some (snd (Player.rest p))) ∧
     (∀ l, l ∉ Team.players T → objs' !! l = Manager.player_objs w !! l)).
Proof.
  intros HT Hnd Hobjs. split.
  - unfold Manager.train_team.
    unfold bind at 1, Manager.get_self at 1. cbn [fst snd].
    unfold bind at 1. rewrite (manager_team_attr_Some _ _ _ T) by done.
    apply (for_each_player (λ p, snd (Player.train p))); [| done | done].
    intros l p s Hp. unfold bind at 1.
    rewrite (manager_player_attr_Some l _ _ p) by done.
    destruct (Player.injured p) eqn:Hinjured; cbn [negb].
    + rewrite train_injured by done. destruct s as [m' []]. simpl in *.
      by rewrite insert_id.
    + rewrite (call_player_run l _ _ p) by done. by rewrite train_returns.
  - unfold Manager.rest_team.
    unfold bind at 1, Manager.get_self at 1. cbn [fst snd].
    unfold bind at 1. rewrite (manager_team_attr_Some _ _ _ T) by done.
    apply (for_each_player (λ p, snd (Player.rest p))); [| done | done].
    intros l p s Hp. by rewrite (call_player_run l _ _ p).
Qed.

Lemma train_team_and_rest_team_witness :
  (∃ objs',
     Manager.train_team (Manager.init 20%nat, club_world)
     = (Returns tt, (Manager.init 20%nat, Manager.set_player_objs objs' club_world)) ∧
     (∀ l p, l ∈ Team.players squad → Manager.player_objs club_world !! l = Some p →
             objs' !! l = Some (snd (Player.train p))) ∧
     (∀ l, l ∉ Team.players squad →
           objs' !! l = Manager.player_objs club_world !! l)) ∧
  (∃ objs',
     Manager.rest_team (Manager.init 20%nat, club_world)
     = (Returns tt, (Manager.init 20%nat, Manager.set_player_objs objs' club_world)) ∧
     (∀ l p, l ∈ Team.players squad → Manager.player_objs club_world !! l = Some p →
             objs' !! l = Some (snd (Player.rest p))) ∧
     (∀ l, l ∉ Team.players squad →
           objs' !! l = Manager.player_objs club_world !! l)).
Proof.
  apply (train_team_and_rest_team (Manager.init 20%nat) club_world squad).
  - reflexivity.
  - apply (NoDup_seq 1 11).
  - intros l Hl. apply list_elem_of_In in Hl. simpl in Hl.
    repeat (destruct Hl as [<- | Hl]; [vm_compute; eauto |]). destruct Hl.
Defined.





(** ** Manager: what saving and loading touch *)

Section files.
Import Manager.

Lemma fresh_loc_not_team (w : world) : fresh_loc w ∉ dom (team_objs w).
Proof.
  unfold fresh_loc. intros Hin.
  apply (is_fresh (dom (player_objs w) ∪ dom (team_objs w))). set_solver.
Qed.

(** The loop of [load_team_from_file] in full: what it leaves of the
    state it starts from. *)
Lemma load_loop_state (team' : loc) (ps : list Player.t) :
  ∀ (s : state) (T0 : Team.t),
  Forall (λ p, 15 ≤ Player.age p ≤ 50 ∧ 0 ≤ Player.overall_rating p ≤ 100) ps →
  team_objs (snd s) !! team' = Some T0 →
  NoDup (Team.players T0) →
  (∀ l, l ∈ Team.players T0 → l ∈ dom (player_objs (snd s))) →
  ∃ s' ls,
    for_each (map entry_of ps) (λ p,
      position <- lift (Position_getitem (entry_position p)) ;;
      fields <- lift (Player.init (entry_name p) position
                        (entry_age p) (entry_rating p)) ;;
      player <- new_player fields ;;
      call_player player "stamina" (modify (Player.set_stamina (entry_stamina p))) ;;
      call_player player "injured" (modify (Player.set_injured (entry_injured p))) ;;
      call_team team' "add_player" (λ objs, Team.add_player objs player)) s
    = (Returns tt, s') ∧
    fst s' = fst s ∧
    team_objs (snd s')
    = <[team' := Team.set_players (Team.players T0 ++ ls) T0]> (team_objs (snd s)) ∧
    files (snd s') = files (snd s) ∧
    NoDup (Team.players T0 ++ ls) ∧
    (∀ l, l ∈ ls → l ∉ dom (player_objs (snd s))) ∧
    (∀ l p, player_objs (snd s) !! l = Some p →
            player_objs (snd s') !! l = Some p).
Proof.
  induction ps as [| p ps IH]; intros s T0 Hvalid HT Hnd Hdom.
  - exists s, []. rewrite app_nil_r. split; [done |]. split; [done |].
    split; [| split; [done | split; [done | split; [by inversion 1 | done]]]].
    rewrite insert_id; [done |]. rewrite HT. by destruct T0.
  - apply Forall_cons in Hvalid as [[Ha Hr] Hvalid].
    cbn [map for_each]. unfold bind at 1.
    rewrite (load_entry s team' T0 p HT Hdom Ha Hr).
    set (l := fresh_loc (snd s)).
    assert (l ∉ dom (player_objs (snd s))) as Hfresh
      by apply fresh_loc_not_player.
    set (s1 := (fst s, _)).
    destruct (IH s1 (Team.set_players (Team.players T0 ++ [l]) T0) Hvalid)
      as (s' & ls & Hrun & Hself & Hteams & Hfiles & Hnd' & Hnew & Hkeep).
    { subst s1. cbn [snd team_objs set_team_objs]. apply lookup_insert_eq. }
    { cbn [Team.players Team.set_players]. apply NoDup_app. split; [done |].
      split; [| apply NoDup_singleton].
      intros x Hx ->%list_elem_of_singleton. by apply Hfresh, Hdom. }
    { subst s1. cbn [snd player_objs set_team_objs set_player_objs].
      intros l' Hl'. rewrite dom_insert_L.
      cbn [Team.players Team.set_players] in Hl'.
      apply elem_of_app in Hl' as [Hl' | Hl'].
      - apply elem_of_union_r, Hdom, Hl'.
      - apply list_elem_of_singleton in Hl' as ->. apply elem_of_union_l.
        by apply elem_of_singleton. }
    cbn [Team.players Team.set_players] in *.
    exists s', (l :: ls). split; [exact Hrun |]. split; [exact Hself |].
    split; [| split; [| split; [| split]]].
    + rewrite Hteams. subst s1. destruct s as [m []].
      cbn [snd team_objs set_team_objs set_player_objs].
      rewrite insert_insert_eq, <- app_assoc. by destruct T0.
    + rewrite Hfiles. subst s1. by destruct s as [m []].
    + by rewrite <- app_assoc in Hnd'.
    + intros l' [-> | Hl']%elem_of_cons; [done |].
      specialize (Hnew l' Hl'). subst s1. destruct s as [m []].
      cbn [snd player_objs set_team_objs set_player_objs] in *.
      rewrite dom_insert_L in Hnew. intros Hin. apply Hnew.
      by apply elem_of_union_r.
    + intros l' p' Hl'. apply Hkeep. subst s1. destruct s as [m []].
      cbn [snd player_objs set_team_objs set_player_objs] in *.
      rewrite lookup_insert_ne; [done |].
      intros <-. apply Hfresh. apply elem_of_dom. by exists p'.
Qed.

(** Saving and then loading, with the whole state that results. *)
Lemma save_then_load_state (m : Manager.t) (w : world) (filename : string)
    (T : Team.t) :
  team_objs w !! team m = Some T →
  (∀ l, l ∈ Team.players T →
        ∃ p, player_objs w !! l = Some p ∧
             15 ≤ Player.age p ≤ 50 ∧ 0 ≤ Player.overall_rating p ≤ 100) →
  ∃ data s2 ls,
    save_team_to_file filename (m, w)
    = (Returns tt, (m, set_files (<[filename := data]> (files w)) w)) ∧
    load_team_from_file filename (m, set_files (<[filename := data]> (files w)) w)
    = (Returns (fresh_loc w), s2) ∧
    fst s2 = m ∧
    team_objs (snd s2)
    = <[fresh_loc w := Team.set_players ls (Team.init (Team.name T))]> (team_objs w) ∧
    files (snd s2) = <[filename := data]> (files w) ∧
    NoDup ls ∧
    (∀ l, l ∈ ls → l ∉ dom (player_objs w)) ∧
    (∀ l p, player_objs w !! l = Some p → player_objs (snd s2) !! l = Some p).
Proof.
  intros HT Hobjs.
  destruct (roster_objects (player_objs w)
              (λ p, 15 ≤ Player.age p ≤ 50 ∧ 0 ≤ Player.overall_rating p ≤ 100)
              (Team.players T) Hobjs) as (ps & Hps & Hvalid).
  set (data := {| doc_team_name := Team.name T;
                  doc_players := map entry_of ps |}).
  set (w1 := set_files (<[filename := data]> (files w)) w).
  assert (fresh_loc w1 = fresh_loc w) as Hfresh by by destruct w.
  exists data. fold w1.
  enough (∃ s2 ls,
    load_team_from_file filename (m, w1) = (Returns (fresh_loc w1), s2) ∧
    fst s2 = m ∧
    team_objs (snd s2)
    = <[fresh_loc w1 := Team.set_players ls (Team.init (Team.name T))]>
        (team_objs w1) ∧
    files (snd s2) = files w1 ∧ NoDup ls ∧
    (∀ l, l ∈ ls → l ∉ dom (player_objs w1)) ∧
    (∀ l p, player_objs w1 !! l = Some p → player_objs (snd s2) !! l = Some p))
    as (s2 & ls & Hload & Hself & Hteams & Hfiles & Hnd & Hnew & Hkeep).
  { exists s2, ls. rewrite Hfresh in *.
    split; [by apply save_team_to_file_returns |].
    split; [done |]. split; [done |].
    subst w1. destruct w. simpl in *. done. }
  unfold load_team_from_file.
  unfold bind at 1, get_world at 1. cbn [snd].
  assert (files w1 !! filename = Some data) as ->.
  { subst w1. destruct w. apply lookup_insert_eq. }
  unfold bind at 1. unfold new_team.
  unfold bind at 1, get_world at 1. cbn [snd].
  unfold bind at 1, modify_world at 1. cbn [fst snd]. unfold ret at 1.
  set (loaded := fresh_loc w1).
  set (s0 := (m, _)).
  destruct (load_loop_state loaded ps s0 (Team.init (Team.name T)) Hvalid)
    as (s2 & ls & Hrun & Hself & Hteams & Hfiles & Hnd & Hnew & Hkeep).
  { subst s0. destruct w1. apply lookup_insert_eq. }
  { constructor. }
  { intros l Hl. inversion Hl. }
  subst data. cbn [doc_players doc_team_name].
  unfold bind at 1. rewrite Hrun. unfold ret.
  exists s2, ls. split; [done |]. split; [done |].
  split; [| split; [| split; [done | split]]].
  - rewrite Hteams. subst s0. destruct w1. simpl. by rewrite insert_insert_eq.
  - rewrite Hfiles. subst s0. by destruct w1.
  - intros l Hl. specialize (Hnew l Hl). subst s0. by destruct w1.
  - intros l p Hl. apply Hkeep. subst s0. by destruct w1.
Qed.
End files.

(** X27: saving a team and loading the file builds new objects and
    touches no existing one.  The loaded team is an object that did not
    exist before, hence not the manager's own team; its players are
    objects that did not exist before, each on the roster once; every
    team and player that existed is unchanged, and so is the manager. *)
Theorem load_builds_new_objects (m : Manager.t) (w : Manager.world)
    (filename : string) (T : Team.t) :
  Manager.team_objs w !! Manager.team m = Some T →
  (∀ l, l ∈ Team.players T →
        ∃ p, Manager.player_objs w !! l = Some p ∧
             15 ≤ Player.age p ≤ 50 ∧ 0 ≤ Player.overall_rating p ≤ 100) →
  ∃ s1 s2 loaded T',
    Manager.save_team_to_file filename (m, w) = (Returns tt, s1) ∧
    Manager.load_team_from_file filename s1 = (Returns loaded, s2) ∧
    fst s2 = m ∧
    Manager.team_objs (snd s2) !! loaded = Some T' ∧
    Manager.team_objs w !! loaded = None ∧ loaded ≠ Manager.team m ∧
    NoDup (Team.players T') ∧
    (∀ l, l ∈ Team.players T' → Manager.player_objs w !! l = None) ∧
    (∀ t T0, Manager.team_objs w !! t = Some T0 →
             Manager.team_objs (snd s2) !! t = Some T0) ∧
    (∀ l p, Manager.player_objs w !! l = Some p →
            Manager.player_objs (snd s2) !! l = Some p).
Proof.
  intros HT Hobjs.
  destruct (save_then_load_state m w filename T HT Hobjs)
    as (data & s2 & ls & Hsave & Hload & Hself & Hteams & _ & Hnd & Hnew & Hkeep).
  assert (Manager.team_objs w !! Manager.fresh_loc w = None) as Hfresh.
  { apply not_elem_of_dom, fresh_loc_not_team. }
  eexists _, s2, (Manager.fresh_loc w), _.
  split; [exact Hsave |]. split; [exact Hload |]. split; [exact Hself |].
  split; [rewrite Hteams; apply lookup_insert_eq |].
  split; [exact Hfresh |]. split; [congruence |].
  split; [exact Hnd |]. split; [| split; [| exact Hkeep]].
  - intros l Hl. by apply not_elem_of_dom, Hnew.
  - intros t T0 Ht. rewrite Hteams, lookup_insert_ne; [done | congruence].
Qed.

Lemma load_builds_new_objects_witness :
  ∃ s1 s2 loaded T',
    Manager.save_team_to_file "team.json" (Manager.init 20%nat, club_world)
    = (Returns tt, s1) ∧
    Manager.load_team_from_file "team.json" s1 = (Returns loaded, s2) ∧
    fst s2 = Manager.init 20%nat ∧
    Manager.team_objs (snd s2) !! loaded = Some T' ∧
    Manager.team_objs club_world !! loaded = None ∧
    loaded ≠ Manager.team (Manager.init 20%nat) ∧
    NoDup (Team.players T') ∧
    (∀ l, l ∈ Team.players T' → Manager.player_objs club_world !! l = None) ∧
    (∀ t T0, Manager.team_objs club_world !! t = Some T0 →
             Manager.team_objs (snd s2) !! t = Some T0) ∧
    (∀ l p, Manager.player_objs club_world !! l = Some p →
            Manager.player_objs (snd s2) !! l = Some p).
Proof.
  apply (load_builds_new_objects (Manager.init 20%nat) club_world "team.json" squad).
  - reflexivity.
  - intros l Hl. apply list_elem_of_In in Hl. simpl in Hl.
    repeat (destruct Hl as [<- | Hl];
            [vm_compute; eexists; split; [reflexivity | repeat split; discriminate] |]).
    destruct Hl.
Defined.

(** X28: the file keeps nothing of the team but its name and roster.
    Whatever formation, lineup, bench, match record and points the saved
    team had, the loaded team has the formation "4-4-2", an empty
    starting eleven and bench, a record of zeros and no points. *)
Theorem load_resets_the_team (m : Manager.t) (w : Manager.world)
    (filename : string) (T : Team.t) :
  Manager.team_objs w !! Manager.team m = Some T →
  (∀ l, l ∈ Team.players T →
        ∃ p, Manager.player_objs w !! l = Some p ∧
             15 ≤ Player.age p ≤ 50 ∧ 0 ≤ Player.overall_rating p ≤ 100) →
  ∃ s1 s2 loaded T',
    Manager.save_team_to_file filename (m, w) = (Returns tt, s1) ∧
    Manager.load_team_from_file filename s1 = (Returns loaded, s2) ∧
    Manager.team_objs (snd s2) !! loaded = Some T' ∧
    Team.formation T' = "4-4-2" ∧
    Team.starting_eleven T' = [] ∧ Team.bench T' = [] ∧
    Team.goals_scored T' = 0 ∧ Team.goals_conceded T' = 0 ∧
    Team.wins T' = 0 ∧ Team.draws T' = 0 ∧ Team.losses T' = 0 ∧
    Team.attrs T' = ∅.
Proof.
  intros HT Hobjs.
  destruct (save_then_load_state m w filename T HT Hobjs)
    as (data & s2 & ls & Hsave & Hload & _ & Hteams & _).
  eexists _, s2, (Manager.fresh_loc w), _.
  split; [exact Hsave |]. split; [exact Hload |].
  split; [rewrite Hteams; apply lookup_insert_eq |]. done.
Qed.

Lemma load_resets_the_team_witness :
  ∃ s1 s2 loaded T',
    Manager.save_team_to_file "team.json" (Manager.init 20%nat, lineup_world)
    = (Returns tt, s1) ∧
    Manager.load_team_from_file "team.json" s1 = (Returns loaded, s2) ∧
    Manager.team_objs (snd s2) !! loaded = Some T' ∧
    Team.formation T' = "4-4-2" ∧
    Team.starting_eleven T' = [] ∧ Team.bench T' = [] ∧
    Team.goals_scored T' = 0 ∧ Team.goals_conceded T' = 0 ∧
    Team.wins T' = 0 ∧ Team.draws T' = 0 ∧ Team.losses T' = 0 ∧
    Team.attrs T' = ∅.
Proof.
  apply (load_resets_the_team (Manager.init 20%nat) lineup_world "team.json"
           (Team.set_starting_eleven (seq 1 11) squad)).
  - reflexivity.
  - intros l Hl. apply list_elem_of_In in Hl. simpl in Hl.
    repeat (destruct Hl as [<- | Hl];
            [vm_compute; eexists; split; [reflexivity | repeat split; discriminate] |]).
    destruct Hl.
Defined.




(** ** Ship *)

Lemma add_crew_member_effect v ship :
  snd (Ship.add_crew_member v ship)
  = Ship.set_crew_member
      (Ship.crew_member ship ++ from_option (λ name, [name]) [] (boards v)) ship ∧
  (raised (fst (Ship.add_crew_member v ship)) ↔ boards v = None).
Proof.
  destruct ship, v; cbn; try (by rewrite app_nil_r).
  destruct (decide (s = "")); cbn; [by rewrite app_nil_r | done].
Qed.

(** X30: a ship is built exactly from a string and an integer, with no
    crew.  After any sequence of [add_crew_member] calls the crew is the
    list of the arguments that were non-empty strings, in call order,
    names repeated as often as they were added; every other call raised
    and changed nothing.  The destination, the duration and the fuel,
    100 times the duration, are as at construction. *)
Theorem crew_is_what_boarded (destination voyage_duration : value)
    (ship : Ship.t) (vs : list value) :
  Ship.init destination voyage_duration = Returns ship →
  (∃ d n, destination = VStr d ∧ as_int voyage_duration = Some n ∧
          Ship.destination ship = d ∧ Ship.voyage_duration ship = n) ∧
  Ship.crew_member (after_boarding vs ship) = omap boards vs ∧
  (∀ v ship0,
     (raised (fst (Ship.add_crew_member v ship0)) ↔ boards v = None) ∧
     (raised (fst (Ship.add_crew_member v ship0)) →
      snd (Ship.add_crew_member v ship0) = ship0)) ∧
  Ship.destination (after_boarding vs ship) = Ship.destination ship ∧
  Ship.calculate_fuel (after_boarding vs ship)
  = (Returns (100 * Ship.voyage_duration ship), after_boarding vs ship).
Proof.
  intros Hinit.
  assert (Ship.crew_member ship = []) as Hcrew.
  { revert Hinit. unfold Ship.init. destruct destination; try done.
    destruct (as_int voyage_duration); [| done]. by intros [= <-]. }
  split.
  - revert Hinit. unfold Ship.init. destruct destination; try done.
    destruct (as_int voyage_duration) as [n |]; [| done]. intros [= <-].
    by exists s, n.
  - assert (∀ ship0,
      Ship.crew_member (after_boarding vs ship0)
      = Ship.crew_member ship0 ++ omap boards vs ∧
      Ship.destination (after_boarding vs ship0) = Ship.destination ship0 ∧
      Ship.voyage_duration (after_boarding vs ship0)
      = Ship.voyage_duration ship0) as Hgen.
    { clear. induction vs as [| v vs IH]; intros ship0.
      - simpl. by rewrite app_nil_r.
      - change (after_boarding (v :: vs) ship0)
          with (after_boarding vs (snd (Ship.add_crew_member v ship0))).
        destruct (IH (snd (Ship.add_crew_member v ship0))) as (-> & -> & ->).
        destruct (add_crew_member_effect v ship0) as [-> _].
        cbn [omap list_omap]. destruct (boards v); simpl.
        + by rewrite <- app_assoc.
        + by rewrite app_nil_r. }
    destruct (Hgen ship) as (-> & -> & Hduration). rewrite Hcrew.
    split; [done |]. split.
    { intros v ship0. destruct (add_crew_member_effect v ship0) as [Hsnd Hfst].
      split; [done |]. intros Hraised. rewrite Hsnd.
      apply Hfst in Hraised as ->. simpl. rewrite app_nil_r. by destruct ship0. }
    split; [done |].
    unfold Ship.calculate_fuel. run. rewrite Hduration. f_equal. f_equal. lia.
Qed.

Lemma crew_is_what_boarded_witness :
  Ship.crew_member
    (after_boarding [VStr "Smith"; VStr ""; VInt 7; VStr "Smith"; VStr "Jones"]
       (Ship.mk [] "Rotterdam" 7))
  = omap boards [VStr "Smith"; VStr ""; VInt 7; VStr "Smith"; VStr "Jones"].
Proof.
  apply (proj1 (proj2 (crew_is_what_boarded (VStr "Rotterdam") (VInt 7)
                         (Ship.mk [] "Rotterdam" 7)
                         [VStr "Smith"; VStr ""; VInt 7; VStr "Smith"; VStr "Jones"]
                         eq_refl))).
Defined.
